(** * py-simple-s3-fs: the object-store router and its backends

    A shallow embedding of [src/objectstore.py].  Python strings are byte
    strings ([string]), [bytes] values are lists of bytes, an insertion
    ordered [dict] is an association list with unique keys, and every call
    that leaves the module (s3fs, boto3, os, shutil, the builtin [open] and
    the file objects it hands back) is a node of a program tree, so that one
    can say which calls a method issues and in which order. *)

From Stdlib Require Import String Ascii List Arith Lia Bool Sorted.
From stdpp Require Import base option list strings gmap.

Set Warnings "-register-all".

Local Open Scope string_scope.
Local Open Scope list_scope.

(** ** Strings, the way the module uses them *)

Definition bytes := list Byte.byte.

(** [s.startswith(pre)] *)
Definition startswith (s pre : string) : bool := String.prefix pre s.

(** [s.endswith(suf)] *)
Fixpoint endswith (s suf : string) : bool :=
  String.eqb s suf ||
  match s with
  | EmptyString => false
  | String _ s' => endswith s' suf
  end.

(** [s[n:]] *)
Fixpoint slice_from (n : nat) (s : string) : string :=
  match n, s with
  | O, _ => s
  | S _, EmptyString => EmptyString
  | S n', String _ s' => slice_from n' s'
  end.

(** [s[:-1]] *)
Fixpoint slice_to_last (s : string) : string :=
  match s with
  | EmptyString => EmptyString
  | String _ EmptyString => EmptyString
  | String a s' => String a (slice_to_last s')
  end.

(** [s.split(sep)] for a one-character separator; never returns [[]]. *)
Fixpoint split (sep : ascii) (s : string) : list string :=
  match s with
  | EmptyString => [EmptyString]
  | String a s' =>
      if Ascii.eqb a sep then EmptyString :: split sep s'
      else match split sep s' with
           | h :: t => String a h :: t
           | [] => [String a EmptyString]
           end
  end.

(** [sep.join(parts)] *)
Definition join (sep : string) (parts : list string) : string :=
  String.concat sep parts.

(** [s.rfind("/") + 1]: the length of the part of [s] up to and including
    its last separator, [0] when there is none. *)
Fixpoint rfind_sep_succ (s : string) : nat :=
  match s with
  | EmptyString => 0
  | String a s' =>
      match rfind_sep_succ s' with
      | O => if Ascii.eqb a "/" then 1 else 0
      | S n => S (S n)
      end
  end.

(** [s[:n]] *)
Fixpoint slice_to (n : nat) (s : string) : string :=
  match n, s with
  | O, _ => EmptyString
  | S _, EmptyString => EmptyString
  | S n', String a s' => String a (slice_to n' s')
  end.

(** [s.rstrip("/")] *)
Fixpoint rstrip_sep (s : string) : string :=
  match s with
  | EmptyString => EmptyString
  | String a s' =>
      match rstrip_sep s' with
      | EmptyString => if Ascii.eqb a "/" then EmptyString else String a EmptyString
      | r => String a r
      end
  end.

(** [sorted(l)] on strings: insertion into an ascending list, by
    [String.leb] (the byte-wise lexicographic order). *)
Fixpoint insert_sorted (x : string) (l : list string) : list string :=
  match l with
  | [] => [x]
  | y :: l' => if String.leb x y then x :: l else y :: insert_sorted x l'
  end.

Definition sorted (l : list string) : list string :=
  foldr insert_sorted [] l.

(** ** Exceptions and results *)

Inductive exn : Type :=
| AssertionError (msg : string)
| TypeError (msg : string)
| KeyError (key : option string)
| AttributeError (name : string)
| NotImplementedError
| FileNotFoundError (path : string)
| OSError (msg : string).

Definition result (A : Type) : Type := exn + A.

(** ** Values crossing the duck-typed [ObjectStore] interface *)

Definition handle := nat.

Inductive value : Type :=
| VNone
| VBool (b : bool)
| VStr (s : string)
| VBytes (b : bytes)
| VList (l : list value)
| VFile (fp : handle)
| VQuery (prefix : option string) (recursive : option bool).

(** Truth value of an object in an [if]. *)
Definition truthy (v : value) : bool :=
  match v with
  | VNone => false
  | VBool b => b
  | VStr s => negb (String.eqb s "")
  | VBytes b => match b with [] => false | _ => true end
  | VList l => match l with [] => false | _ => true end
  | VFile _ => true
  | VQuery _ _ => true
  end.

(** The passive listing filter, [S3Query]. *)
Record S3Query := { q_prefix : option string; q_recursive : option bool }.

(** What the module reads of a [list_objects_v2] response: the flag, and
    the ['Key'] of each entry of ['Contents'] and the ['Prefix'] of each
    entry of ['CommonPrefixes'], [None] when the key is absent. *)
Record ListObjectsV2Output := {
  IsTruncated : bool;
  Contents : option (list string);
  CommonPrefixes : option (list string)
}.

(** ** Calls leaving the module, and programs over them *)

Definition loc := nat.

Inductive call : Type -> Type :=
(* s3fs.S3FileSystem *)
| s3fs_exists (path : string) : call bool
| s3fs_ls (path : string) : call (list string)
| s3fs_rm (path : string) (recursive : bool) : call unit
| s3fs_open (file mode : string) : call handle
(* boto3 client *)
| s3_list_objects_v2 (Bucket Delimiter Prefix : string) : call ListObjectsV2Output
(* os, shutil, builtins *)
| os_path_exists (path : string) : call bool
| os_makedirs (name : string) (exist_ok : bool) : call unit
| os_listdir (path : string) : call (list string)
| os_walk (top : string) : call (list (string * list string * list string))
| os_remove (path : string) : call unit
| shutil_rmtree (path : string) : call unit
| builtin_open (file mode : string) : call handle
(* file objects *)
| fp_read (fp : handle) : call bytes
| fp_write (fp : handle) (data : bytes) : call unit
| fp_close (fp : handle) : call unit
(* dict objects of the interpreter heap *)
| dict_getitem (d : loc) (key : string) : call bytes
| dict_setitem (d : loc) (key : string) (v : bytes) : call unit.

Inductive Prog (A : Type) : Type :=
| Ret (a : A)
| Raise (e : exn)
| Call {X : Type} (c : call X) (k : result X -> Prog A).

Arguments Ret {A} a.
Arguments Raise {A} e.
Arguments Call {A X} c k.

Fixpoint bind {A B : Type} (m : Prog A) (f : A -> Prog B) : Prog B :=
  match m with
  | Ret a => f a
  | Raise e => Raise e
  | Call c k => Call c (fun r => bind (k r) f)
  end.

#[global] Instance Prog_ret : MRet Prog := @Ret.
#[global] Instance Prog_bind : MBind Prog := fun A B f m => bind m f.

(** Issue a call; an exception of the callee propagates. *)
Definition perform {X : Type} (c : call X) : Prog X :=
  Call c (fun r => match r with inl e => Raise e | inr x => Ret x end).

Definition lift {A : Type} (r : result A) : Prog A :=
  match r with inl e => Raise e | inr a => Ret a end.

(** [try: body finally: fin] *)
Fixpoint try_finally {A : Type} (body : Prog A) (fin : Prog unit) : Prog A :=
  match body with
  | Ret a => fin ;; Ret a
  | Raise e => fin ;; Raise e
  | Call c k => Call c (fun r => try_finally (k r) fin)
  end.

(** [with opener as fp: body fp]: the file is closed on every exit. *)
Definition with_open {A : Type} (opener : Prog handle) (body : handle -> Prog A) : Prog A :=
  fp ← opener; try_finally (body fp) (perform (fp_close fp)).

(** [assert cond] *)
Definition assert (cond : bool) : Prog unit :=
  if cond then Ret tt else Raise (AssertionError "").

(** ** The interpreter heap, the world, and running a program

    [heap] holds the dict objects of the interpreter; [ext] is the state
    of everything outside it.  The dict calls are answered here, by the
    language's own rules; every other call goes to [medium], the behaviour
    of the collaborators, and is recorded. *)

Record World (E : Type) := { heap : gmap loc (gmap string bytes); ext : E }.
Arguments heap {E} w.
Arguments ext {E} w.

Inductive event : Type :=
| Event {X : Type} (c : call X).

Record outcome (E A : Type) := {
  res : result A;       (* what the caller gets *)
  final : World E;      (* the world afterwards *)
  calls : list event    (* the calls that reached a collaborator, in order *)
}.
Arguments res {E A} o.
Arguments final {E A} o.
Arguments calls {E A} o.

Definition handler (E : Type) : Type := forall X : Type, call X -> E -> result X * E.

Definition step {E X : Type} (medium : handler E) (c : call X) (w : World E)
  : result X * World E * list event :=
  match c in call X0 return result X0 * World E * list event with
  | dict_getitem d key =>
      (match default ∅ (heap w !! d) !! key with
       | Some v => inr v
       | None => inl (KeyError (Some key))
       end, w, [])
  | dict_setitem d key v =>
      (inr tt,
       {| heap := <[d := <[key := v]> (default ∅ (heap w !! d))]> (heap w); ext := ext w |},
       [])
  | c' =>
      let '(r, e) := medium _ c' (ext w) in
      (r, {| heap := heap w; ext := e |}, [Event c'])
  end.

Fixpoint exec {E A : Type} (medium : handler E) (p : Prog A) (w : World E) : outcome E A :=
  match p with
  | Ret a => {| res := inr a; final := w; calls := [] |}
  | Raise e => {| res := inl e; final := w; calls := [] |}
  | Call c k =>
      let '(r, w', ev) := step medium c w in
      let o := exec medium (k r) w' in
      {| res := res o; final := final o; calls := ev ++ calls o |}
  end.

(** ** An insertion-ordered [dict]

    Keys are unique; assigning to a key that is present replaces its value
    where it stands, assigning to a new key appends. *)

Section PyDict.
Context {K V : Type} `{EqDecision K}.

Definition pydict : Type := list (K * V).

(** [d[k] = v] *)
Fixpoint dict_set (d : pydict) (k : K) (v : V) : pydict :=
  match d with
  | [] => [(k, v)]
  | (k', v') :: d' =>
      if decide (k' = k) then (k', v) :: d' else (k', v') :: dict_set d' k v
  end.

(** [d.get(k)] *)
Fixpoint dict_get (d : pydict) (k : K) : option V :=
  match d with
  | [] => None
  | (k', v') :: d' => if decide (k' = k) then Some v' else dict_get d' k
  end.

(** [d.items()] *)
Definition items (d : pydict) : list (K * V) := d.
End PyDict.
Arguments pydict K V : clear implicits.

(** ** The interface *)

Module ObjectStore.
(** An object with the methods of [ObjectStore]; what each returns is
    whatever the implementing class returns. *)
Record t : Type := {
  get_object : string -> Prog value;
  put_object : string -> bytes -> Prog value;
  ls : string -> option S3Query -> Prog value;
  rm : string -> bool -> Prog value;
  exists_ : string -> Prog value;
  open_ : string -> string -> Prog value;
  path_join : string -> list string -> Prog value
}.

(** [ls_filtered] is overridden nowhere in the module. *)
Definition ls_filtered (self : t) (path : string) (query : S3Query) : Prog value :=
  Raise NotImplementedError.

(** [[p for p in paths if self.exists(p)]] *)
Fixpoint exists_list (self : t) (paths : list string) : Prog (list string) :=
  match paths with
  | [] => Ret []
  | p :: paths' =>
      v ← exists_ self p;
      rest ← exists_list self paths';
      Ret (if truthy v then p :: rest else rest)
  end.
End ObjectStore.

Definition VStrs (l : list string) : value := VList (map VStr l).
Definition VQ (q : S3Query) : value := VQuery (q_prefix q) (q_recursive q).

(** Binding a positional argument list to the parameters
    [(path, prefix, recursive=False)] of a [_ls_query] method: too few
    arguments raise [TypeError] before the body runs.  The module has two
    call sites, one with no argument and one with a single one. *)
Definition call_ls_query (f : string -> string -> bool -> Prog (list string))
    (args : list value) : Prog (list string) :=
  match args with
  | [] => Raise (TypeError "_ls_query() missing 2 required positional arguments: 'path' and 'prefix'")
  | [_] => Raise (TypeError "_ls_query() missing 1 required positional argument: 'prefix'")
  | [VStr path; VStr prefix] => f path prefix false
  | [VStr path; VStr prefix; VBool recursive] => f path prefix recursive
  | _ => Raise (TypeError "_ls_query(): unsupported arguments")
  end.

(** ** [os.path], as far as the module uses it (POSIX flavour) *)

Fixpoint all_sep (s : string) : bool :=
  match s with
  | EmptyString => true
  | String a s' => Ascii.eqb a "/" && all_sep s'
  end.

(** [os.path.dirname(p)] *)
Definition os_path_dirname (p : string) : string :=
  let i := rfind_sep_succ p in
  let head := slice_to i p in
  if negb (String.eqb head "") && negb (all_sep head) then rstrip_sep head else head.

(** [os.path.join(a, *p)] *)
Fixpoint os_path_join (a : string) (p : list string) : string :=
  match p with
  | [] => a
  | b :: p' =>
      let path :=
        if startswith b "/" then b
        else if String.eqb a "" || endswith a "/" then a +:+ b
        else a +:+ "/" +:+ b in
      os_path_join path p'
  end.

(** ** The cloud backend *)

Module S3ObjectStore.

Definition exists_ (path : string) : Prog bool :=
  perform (s3fs_exists path).

Definition open_ (file mode : string) : Prog handle :=
  perform (s3fs_open file mode).

Definition get_object (path : string) : Prog bytes :=
  with_open (open_ path "rb") (fun fp => perform (fp_read fp)).

Definition put_object (path : string) (data : bytes) : Prog unit :=
  with_open (open_ path "wb") (fun fp => perform (fp_write fp data)).

Definition _split_path (path : string) : Prog (string * string) :=
  assert (startswith path "s3://");;
  let parts := split "/" (slice_from 5 path) in
  let bucket_name := hd "" parts in
  let key := if Nat.ltb 1 (length parts) then join "/" (tl parts) else "" in
  Ret (bucket_name, key).

(** The part of [_ls_query] after the response has arrived. *)
Definition _ls_query_files (bucket : string) (rsp : ListObjectsV2Output) : Prog (list string) :=
  if IsTruncated rsp then Raise (AssertionError "Truncated responses not supported yet")
  else
    let files := [] in
    let files := match Contents rsp with Some keys => files ++ keys | None => files end in
    let files := match CommonPrefixes rsp with Some ps => files ++ ps | None => files end in
    let files := map (fun f => if endswith f "/" then slice_to_last f else f) files in
    Ret (map (fun f => "s3://" +:+ bucket +:+ "/" +:+ f) files).

Definition _ls_query (path prefix : string) (recursive : bool) : Prog (list string) :=
  bk ← _split_path path;
  let bucket := fst bk in
  let path_key := snd bk in
  let delim := if negb recursive then "/" else "" in
  let actual_prefix := path_key +:+ prefix in
  rsp ← perform (s3_list_objects_v2 bucket delim actual_prefix);
  _ls_query_files bucket rsp.

(** The [else] branch calls [self._ls_query()] with no argument. *)
Definition ls (path : string) (query : option S3Query) : Prog (list string) :=
  match query with
  | None =>
      fs ← perform (s3fs_ls path);
      Ret (sorted (map (fun f => "s3://" +:+ f) fs))
  | Some _ =>
      l ← call_ls_query _ls_query [];
      Ret (sorted l)
  end.

Definition rm (path : string) (recursive : bool) : Prog unit :=
  perform (s3fs_rm path recursive).

(** The loop [for i in range(len(all_paths)-1)], one index at a time;
    every index it visits is in range. *)
Definition path_join_step (all_paths : list string) (i : nat) : list string :=
  match all_paths !! i with
  | Some s => if negb (endswith s "/") then <[i := s +:+ "/"]> all_paths else all_paths
  | None => all_paths
  end.

Definition path_join (p : string) (paths : list string) : string :=
  let all_paths := p :: paths in
  let all_paths := List.filter (fun p => negb (String.eqb p "")) all_paths in
  let all_paths := foldl path_join_step all_paths (seq 0 (length all_paths - 1)) in
  join "" all_paths.

Definition as_store : ObjectStore.t := {|
  ObjectStore.get_object path := b ← get_object path; Ret (VBytes b);
  ObjectStore.put_object path data := put_object path data;; Ret VNone;
  ObjectStore.ls path query := l ← ls path query; Ret (VStrs l);
  ObjectStore.rm path recursive := rm path recursive;; Ret VNone;
  ObjectStore.exists_ path := b ← exists_ path; Ret (VBool b);
  ObjectStore.open_ file mode := fp ← open_ file mode; Ret (VFile fp);
  ObjectStore.path_join p paths := Ret (VStr (path_join p paths))
|}.

End S3ObjectStore.

(** ** The local backend *)

Module LocalObjectStore.

Definition exists_ (path : string) : Prog bool :=
  perform (os_path_exists path).

Definition open_ (file mode : string) : Prog handle :=
  (if negb (String.eqb mode "r")
      && negb (bool_decide (os_path_dirname file ∈ ["/"; ""]))
   then perform (os_makedirs (os_path_dirname file) true)
   else Ret tt);;
  perform (builtin_open file mode).

Definition get_object (path : string) : Prog bytes :=
  with_open (open_ path "rb") (fun fp => perform (fp_read fp)).

Definition put_object (path : string) (data : bytes) : Prog unit :=
  perform (os_makedirs (os_path_dirname path) true);;
  with_open (open_ path "wb") (fun fp => perform (fp_write fp data)).

Definition path_join (p : string) (paths : list string) : string :=
  os_path_join p paths.

Definition ls_none (path : string) : Prog (list string) :=
  names ← perform (os_listdir path);
  Ret (sorted (map (fun f => path_join path [f]) names)).

Definition _ls_query (path prefix : string) (recursive : bool) : Prog (list string) :=
  all_files ←
    (if recursive then
       tree ← perform (os_walk path);
       Ret (flat_map (fun entry : string * list string * list string =>
                        let '(sub_path, _, files) := entry in
                        map (fun name => os_path_join sub_path [name]) files) tree)
     else ls_none path);
  let files := List.filter (fun f => startswith f prefix) all_files in
  Ret (sorted files).

(** The [else] branch calls [self._ls_query(query)]: the query lands in
    [path] and [prefix] is missing. *)
Definition ls (path : string) (query : option S3Query) : Prog (list string) :=
  match query with
  | None => ls_none path
  | Some q =>
      l ← call_ls_query _ls_query [VQ q];
      Ret (sorted l)
  end.

Definition rm (path : string) (recursive : bool) : Prog unit :=
  if recursive then
    if Nat.ltb (String.length path) 5 then
      Raise (AssertionError ("You probably didn't intend to recursively remove folder " +:+ path))
    else perform (shutil_rmtree path)
  else perform (os_remove path).

Definition as_store : ObjectStore.t := {|
  ObjectStore.get_object path := b ← get_object path; Ret (VBytes b);
  ObjectStore.put_object path data := put_object path data;; Ret VNone;
  ObjectStore.ls path query := l ← ls path query; Ret (VStrs l);
  ObjectStore.rm path recursive := rm path recursive;; Ret VNone;
  ObjectStore.exists_ path := b ← exists_ path; Ret (VBool b);
  ObjectStore.open_ file mode := fp ← open_ file mode; Ret (VFile fp);
  ObjectStore.path_join p paths := Ret (VStr (path_join p paths))
|}.

End LocalObjectStore.

(** ** The router *)

Module MultiObjectStore.

Record t : Type := { map_prefix_fs : pydict (option string) ObjectStore.t }.

Definition init : t := {| map_prefix_fs := [] |}.

(** Mutates [self] and returns it: here, the new state of [self]. *)
Definition add_fs (self : t) (fs : ObjectStore.t) (prefix : option string) : t :=
  {| map_prefix_fs := dict_set (map_prefix_fs self) prefix fs |}.

(** [prefix is not None and path.startswith(prefix)] *)
Definition selects (path : string) (prefix : option string) : bool :=
  match prefix with
  | Some pre => startswith path pre
  | None => false
  end.

Definition _fs (self : t) (path : string) : result ObjectStore.t :=
  let fs_list :=
    map snd (List.filter (fun entry => selects path (fst entry))
                         (items (map_prefix_fs self))) in
  match fs_list with
  | fs :: _ => inr fs                       (* len(fs_list) > 0: fs_list[0] *)
  | [] =>
      match dict_get (map_prefix_fs self) None with
      | Some fs => inr fs
      | None => inl (KeyError None)
      end
  end.

Definition put_object (self : t) (path : string) (data : bytes) : Prog value :=
  fs ← lift (_fs self path);
  ObjectStore.put_object fs path data;;
  Ret VNone.

Definition get_object (self : t) (path : string) : Prog value :=
  fs ← lift (_fs self path);
  ObjectStore.get_object fs path.

Definition exists_ (self : t) (path : string) : Prog value :=
  fs ← lift (_fs self path);
  ObjectStore.exists_ fs path.

(** [return self._fs(path).ls(path)]: the backend's [query] takes its
    default. *)
Definition ls (self : t) (path : string) (query : option S3Query) : Prog value :=
  fs ← lift (_fs self path);
  ObjectStore.ls fs path None.

Definition rm (self : t) (path : string) (recursive : bool) : Prog value :=
  fs ← lift (_fs self path);
  ObjectStore.rm fs path recursive.

Definition open_ (self : t) (file mode : string) : Prog value :=
  fs ← lift (_fs self file);
  ObjectStore.open_ fs file mode.

Definition path_join (self : t) (p : string) (paths : list string) : Prog value :=
  fs ← lift (_fs self p);
  ObjectStore.path_join fs p paths.

Definition as_store (self : t) : ObjectStore.t := {|
  ObjectStore.get_object := get_object self;
  ObjectStore.put_object := put_object self;
  ObjectStore.ls := ls self;
  ObjectStore.rm := rm self;
  ObjectStore.exists_ := exists_ self;
  ObjectStore.open_ := open_ self;
  ObjectStore.path_join := path_join self
|}.

(** The store after a sequence of [add_fs(fs, prefix)] calls on a fresh
    router. *)
Definition registered (regs : list (option string * ObjectStore.t)) : t :=
  foldl (fun self reg => add_fs self (snd reg) (fst reg)) init regs.

End MultiObjectStore.

(** ** The in-memory backend

    [perPath_data = {}] sits in the class body: the dict is made once, when
    the class is, and bound to the class.  An instance has no [__init__],
    so its own attribute table starts empty and [self.perPath_data] is
    found on the class. *)

Module InMemoryObjectStore.

(** The one dict the class body creates. *)
Definition perPath_data_loc : loc := 0.

Definition class_attrs : gmap string loc := {[ "perPath_data" := perPath_data_loc ]}.

Record instance : Type := { oid : nat; attrs : gmap string loc }.

(** [InMemoryObjectStore()] *)
Definition new (oid : nat) : instance := {| oid := oid; attrs := ∅ |}.

(** [self.name]: the instance first, then the class. *)
Definition getattr (self : instance) (name : string) : Prog loc :=
  match attrs self !! name with
  | Some d => Ret d
  | None =>
      match class_attrs !! name with
      | Some d => Ret d
      | None => Raise (AttributeError name)
      end
  end.

Definition get_object (self : instance) (path : string) : Prog bytes :=
  d ← getattr self "perPath_data";
  perform (dict_getitem d path).

Definition put_object (self : instance) (path : string) (data : bytes) : Prog unit :=
  d ← getattr self "perPath_data";
  perform (dict_setitem d path data).

Definition ls (self : instance) (path : string) (query : option S3Query) : Prog bytes :=
  d ← getattr self "perPath_data";
  perform (dict_getitem d path).

(** The remaining methods are [pass]: they return [None]. *)
Definition rm (self : instance) (path : string) (recursive : bool) : Prog value :=
  Ret VNone.

Definition exists_ (self : instance) (path : string) : Prog value :=
  Ret VNone.

Definition open_ (self : instance) (file mode : string) : Prog value :=
  Ret VNone.

Definition path_join (self : instance) (p : string) (paths : list string) : Prog value :=
  Ret VNone.

Definition as_store (self : instance) : ObjectStore.t := {|
  ObjectStore.get_object path := b ← get_object self path; Ret (VBytes b);
  ObjectStore.put_object path data := put_object self path data;; Ret VNone;
  ObjectStore.ls path query := b ← ls self path query; Ret (VBytes b);
  ObjectStore.rm := rm self;
  ObjectStore.exists_ := exists_ self;
  ObjectStore.open_ := open_ self;
  ObjectStore.path_join := path_join self
|}.

End InMemoryObjectStore.

(** ** The facade *)

Definition create_multi_object_store : MultiObjectStore.t :=
  MultiObjectStore.add_fs
    (MultiObjectStore.add_fs MultiObjectStore.init S3ObjectStore.as_store (Some "s3://"))
    LocalObjectStore.as_store None.

Definition fs : MultiObjectStore.t := create_multi_object_store.

(** ** A reference medium

    One concrete behaviour of the collaborators, to run programs on: S3 as a
    map from ["bucket/key"] to contents, the local disk as a map of files
    and a set of directories, both keyed by the path as written.  The
    answer of [list_objects_v2] is left to an oracle of the medium. *)

Module Medium.

Record t : Type := {
  objects : gmap string bytes;
  listing : string -> string -> string -> ListObjectsV2Output;
  files : gmap string bytes;
  dirs : gset string;
  fds : gmap handle (bool * string);   (* open files: on S3?, path *)
  next_fd : handle
}.

Definition key_of (path : string) : string :=
  if startswith path "s3://" then slice_from 5 path else path.

Definition norm (p : string) : string :=
  if all_sep p then p else rstrip_sep p.

(** [p] is [d] or lies below it. *)
Definition under (d p : string) : bool :=
  String.eqb p (norm d) || startswith p (norm d +:+ "/").

Definition is_dir (m : t) (d : string) : bool :=
  (negb (String.eqb d "") && all_sep d) || bool_decide (norm d ∈ dirs m).

Definition is_file (m : t) (p : string) : bool :=
  bool_decide (is_Some (files m !! p)).

(** [d] and the directories above it, nearest first. *)
Fixpoint ancestors (fuel : nat) (d : string) : list string :=
  match fuel with
  | O => []
  | S fuel' =>
      if String.eqb d "" || all_sep d then []
      else d :: ancestors fuel' (os_path_dirname d)
  end.

Definition basename (p : string) : string := slice_from (rfind_sep_succ p) p.

Definition children (entries : list string) (d : string) : list string :=
  map basename
    (List.filter (fun e => String.eqb (os_path_dirname e) (norm d) && negb (String.eqb e (norm d)))
                 entries).

Definition set_objects (m : t) (o : gmap string bytes) : t :=
  {| objects := o; listing := listing m; files := files m; dirs := dirs m;
     fds := fds m; next_fd := next_fd m |}.

Definition set_files (m : t) (f : gmap string bytes) : t :=
  {| objects := objects m; listing := listing m; files := f; dirs := dirs m;
     fds := fds m; next_fd := next_fd m |}.

Definition set_dirs (m : t) (d : gset string) : t :=
  {| objects := objects m; listing := listing m; files := files m; dirs := d;
     fds := fds m; next_fd := next_fd m |}.

Definition set_fds (m : t) (f : gmap handle (bool * string)) (n : handle) : t :=
  {| objects := objects m; listing := listing m; files := files m; dirs := dirs m;
     fds := f; next_fd := n |}.

Definition alloc (m : t) (s3 : bool) (path : string) : result handle * t :=
  (inr (next_fd m), set_fds m (<[next_fd m := (s3, path)]> (fds m)) (S (next_fd m))).

Definition open_file (m : t) (s3 : bool) (path mode : string) : result handle * t :=
  if startswith mode "r" then
    if s3 then
      match objects m !! key_of path with
      | Some _ => alloc m true (key_of path)
      | None => (inl (FileNotFoundError path), m)
      end
    else
      match files m !! path with
      | Some _ => alloc m false path
      | None => (inl (FileNotFoundError path), m)
      end
  else if startswith mode "w" then
    if s3 then alloc (set_objects m (<[key_of path := []]> (objects m))) true (key_of path)
    else if is_dir m path then (inl (OSError "IsADirectoryError"), m)
    else if String.eqb (os_path_dirname path) "" || is_dir m (os_path_dirname path)
    then alloc (set_files m (<[path := []]> (files m))) false path
    else (inl (FileNotFoundError path), m)
  else (inl (OSError "ValueError: invalid mode"), m).

Definition run {X : Type} (c : call X) (m : t) : result X * t :=
  match c in call X0 return result X0 * t with
  | s3fs_exists path =>
      (inr (bool_decide (is_Some (objects m !! key_of path))
            || existsb (under (key_of path)) (elements (dom (objects m)))), m)
  | s3fs_ls path =>
      (inr (remove_dups
              (map (fun k => norm (key_of path) +:+ "/" +:+
                             hd "" (split "/" (slice_from (S (String.length (norm (key_of path)))) k)))
                   (List.filter (fun k => startswith k (norm (key_of path) +:+ "/"))
                                (elements (dom (objects m)))))), m)
  | s3fs_rm path recursive =>
      if recursive then
        (inr tt, set_objects m (filter (fun kv => ¬ under (key_of path) kv.1) (objects m)))
      else
        match objects m !! key_of path with
        | Some _ => (inr tt, set_objects m (delete (key_of path) (objects m)))
        | None => (inl (FileNotFoundError path), m)
        end
  | s3fs_open file mode => open_file m true file mode
  | s3_list_objects_v2 Bucket Delimiter Prefix => (inr (listing m Bucket Delimiter Prefix), m)
  | os_path_exists path =>
      (inr (if endswith path "/" then is_dir m path else is_file m path || is_dir m path), m)
  | os_makedirs name exist_ok =>
      if String.eqb name "" then (inl (FileNotFoundError ""), m)
      else if existsb (is_file m) (ancestors (String.length name) (norm name))
      then (inl (OSError "FileExistsError"), m)
      else if is_dir m name then
        (if exist_ok then inr tt else inl (OSError "FileExistsError"), m)
      else (inr tt, set_dirs m (list_to_set (ancestors (String.length name) (norm name)) ∪ dirs m))
  | os_listdir path =>
      if is_dir m path then
        (inr (children (elements (dom (files m)) ++ elements (dirs m)) path), m)
      else (inl (FileNotFoundError path), m)
  | os_walk top =>
      (inr (map (fun d => (d, children (elements (dirs m)) d, children (elements (dom (files m))) d))
                (List.filter (is_dir m) [norm top]
                 ++ List.filter (fun d => startswith d (norm top +:+ "/")) (elements (dirs m)))), m)
  | os_remove path =>
      match files m !! path with
      | Some _ => (inr tt, set_files m (delete path (files m)))
      | None => (inl (FileNotFoundError path), m)
      end
  | shutil_rmtree path =>
      if is_dir m path then
        (inr tt,
         set_dirs (set_files m (filter (fun kv => ¬ under path kv.1) (files m)))
                  (filter (fun d => ¬ under path d) (dirs m)))
      else (inl (FileNotFoundError path), m)
  | builtin_open file mode => open_file m false file mode
  | fp_read fp =>
      match fds m !! fp with
      | Some (true, key) => (inr (default [] (objects m !! key)), m)
      | Some (false, path) => (inr (default [] (files m !! path)), m)
      | None => (inl (OSError "ValueError: I/O operation on closed file"), m)
      end
  | fp_write fp data =>
      match fds m !! fp with
      | Some (true, key) =>
          (inr tt, set_objects m (<[key := default [] (objects m !! key) ++ data]> (objects m)))
      | Some (false, path) =>
          (inr tt, set_files m (<[path := default [] (files m !! path) ++ data]> (files m)))
      | None => (inl (OSError "ValueError: I/O operation on closed file"), m)
      end
  | fp_close fp => (inr tt, set_fds m (delete fp (fds m)) (next_fd m))
  | dict_getitem _ key => (inl (KeyError (Some key)), m)
  | dict_setitem _ _ _ => (inr tt, m)
  end.

Definition medium : handler t := @run.

(** Nothing stored, and every listing empty and complete. *)
Definition empty : t := {|
  objects := ∅;
  listing := fun _ _ _ => {| IsTruncated := false; Contents := None; CommonPrefixes := None |};
  files := ∅;
  dirs := ∅;
  fds := ∅;
  next_fd := 3
|}.

End Medium.

(** The interpreter right after the module is imported: the class body of
    [InMemoryObjectStore] has made its dict. *)
Definition imported {E : Type} (e : E) : World E :=
  {| heap := {[ InMemoryObjectStore.perPath_data_loc := ∅ ]}; ext := e |}.

(** ** The dispatch rule, in the words of the specification and as the
       registrations determine it *)

Definition registration : Type := option string * ObjectStore.t.

(** In the specification's words: the first registration whose prefix is
    not null and is a prefix of the path; failing that, the first
    registration with a null prefix; failing that, an error. *)
Definition first_registered (regs : list registration) (path : string)
  : result ObjectStore.t :=
  match List.find (fun reg => MultiObjectStore.selects path (fst reg)) regs with
  | Some reg => inr (snd reg)
  | None =>
      match List.find (fun reg => bool_decide (fst reg = None)) regs with
      | Some reg => inr (snd reg)
      | None => inl (KeyError None)
      end
  end.

(** The backend a prefix is bound to once all registrations are done: the
    one of the last registration under that prefix. *)
Fixpoint bound (regs : list registration) (k : option string) : option ObjectStore.t :=
  match regs with
  | [] => None
  | reg :: regs' =>
      match bound regs' k with
      | Some fs => Some fs
      | None => if decide (fst reg = k) then Some (snd reg) else None
      end
  end.

(** The first registered prefix that selects the path decides, and the
    backend is the one that prefix is bound to at the end. *)
Definition dispatch_rule (regs : list registration) (path : string)
  : result ObjectStore.t :=
  match List.find (fun reg => MultiObjectStore.selects path (fst reg)) regs with
  | Some reg => inr (default (snd reg) (bound regs (fst reg)))
  | None =>
      match bound regs None with
      | Some fs => inr fs
      | None => inl (KeyError None)
      end
  end.


(** A prefix registered twice, with another matching prefix in between. *)
Definition regs_rebinding : list registration :=
  [ (Some "s3://", S3ObjectStore.as_store);
    (Some "s3", InMemoryObjectStore.as_store (InMemoryObjectStore.new 0));
    (Some "s3://", LocalObjectStore.as_store) ].

(** A medium whose listing is always cut short. *)
Definition truncating : Medium.t := {|
  Medium.objects := ∅;
  Medium.listing := fun _ _ _ =>
    {| IsTruncated := true; Contents := Some ["k/a"]; CommonPrefixes := None |};
  Medium.files := ∅;
  Medium.dirs := ∅;
  Medium.fds := ∅;
  Medium.next_fd := 3
|}.

(** A bucket holding one object. *)
Definition one_object : Medium.t :=
  Medium.set_objects Medium.empty {[ "b/data" := [Byte.x2a] ]}.

(** A disk holding one file in one directory. *)
Definition one_file : Medium.t :=
  Medium.set_dirs
    (Medium.set_files Medium.empty {[ "/tmp/t/f1.txt" := [Byte.x2a] ]})
    {[ "/tmp"; "/tmp/t" ]}.

(** A backend that answers [ls] with the query it was handed. *)
Definition probe : ObjectStore.t := {|
  ObjectStore.get_object path := Ret VNone;
  ObjectStore.put_object path data := Ret VNone;
  ObjectStore.ls path query := Ret (match query with Some q => VQ q | None => VNone end);
  ObjectStore.rm path recursive := Ret VNone;
  ObjectStore.exists_ path := Ret VNone;
  ObjectStore.open_ file mode := Ret VNone;
  ObjectStore.path_join p paths := Ret VNone
|}.

(** ** Separators in a joined path *)

(** The number of places where a separator is followed by a separator. *)
Fixpoint count_double_sep (s : string) : nat :=
  match s with
  | EmptyString => 0
  | String a s' =>
      (if Ascii.eqb a "/" && startswith s' "/" then 1 else 0) + count_double_sep s'
  end.

(** A segment followed by its separator: its own if it ends in one. *)
Definition close_segment (s : string) : string :=
  if endswith s "/" then s else s +:+ "/".

(** The segments, each but the last followed by its separator. *)
Fixpoint glue (segments : list string) : string :=
  match segments with
  | [] => ""
  | s :: rest =>
      match rest with
      | [] => s
      | _ :: _ => close_segment s +:+ glue rest
      end
  end.

Definition non_empty (segments : list string) : list string :=
  List.filter (fun s => negb (String.eqb s "")) segments.

(** C9 as worded: the join introduces no doubled separator, the result has
    no more of them than its segments bring. *)
Definition join_never_doubles : Prop :=
  forall (p : string) (paths : list string),
    count_double_sep (S3ObjectStore.path_join p paths)
    <= list_sum (map count_double_sep (p :: paths)).
(** ** Outcomes and string tests used in the further properties *)

(** The outcome of a program that raised [e] without issuing a call. *)
Definition raised {E A : Type} (e : exn) (w : World E) : outcome E A :=
  {| res := inl e; final := w; calls := [] |}.

(** ["/" in s] *)
Fixpoint has_sep (s : string) : bool :=
  match s with
  | EmptyString => false
  | String a s' => Ascii.eqb a "/" || has_sep s'
  end.

(** A bucket whose listing answers with two keys and one common prefix,
    completely. *)
Definition listing_folder : Medium.t := {|
  Medium.objects := ∅;
  Medium.listing := fun _ _ _ =>
    {| IsTruncated := false;
       Contents := Some ["folder/wee.txt"; "folder/_lala"];
       CommonPrefixes := Some ["folder/subfolder/"] |};
  Medium.files := ∅;
  Medium.dirs := ∅;
  Medium.fds := ∅;
  Medium.next_fd := 3
|}.

(** A disk with the files of the listing test. *)
Definition test_tree : Medium.t :=
  Medium.set_dirs
    (Medium.set_files Medium.empty
       {[ "/t/wee.txt" := [Byte.x2a]; "/t/_lala" := [Byte.x2a];
          "/t/folder/wee.txt" := [Byte.x2a] ]})
    {[ "/t"; "/t/folder" ]}.

(** A router with the cloud backend only: no default. *)
Definition cloud_only : MultiObjectStore.t :=
  MultiObjectStore.add_fs MultiObjectStore.init S3ObjectStore.as_store (Some "s3://").

(** A router that keeps paths under ["mem://"] in memory. *)
Definition with_memory : MultiObjectStore.t :=
  MultiObjectStore.add_fs fs
    (InMemoryObjectStore.as_store (InMemoryObjectStore.new 7)) (Some "mem://").

(** * Theorems *)

(** ** The ordered dict *)

Section PyDictFacts.
Context {K V : Type} `{EqDecision K}.
Implicit Types (d : pydict K V) (k : K) (v : V).

Lemma dict_get_set d k v k' :
  dict_get (dict_set d k v) k' = if decide (k = k') then Some v else dict_get d k'.
Proof.
  induction d as [|[k0 v0] d IH]; simpl.
  - destruct (decide (k = k')); reflexivity.
  - destruct (decide (k0 = k)) as [->|Hne]; simpl.
    + destruct (decide (k = k')); reflexivity.
    + rewrite IH. destruct (decide (k0 = k')) as [->|]; [|reflexivity].
      destruct (decide (k = k')); congruence.
Qed.

Lemma dict_set_keys d k v :
  map fst (dict_set d k v) =
  if decide (k ∈ map fst d) then map fst d else map fst d ++ [k].
Proof.
  induction d as [|[k0 v0] d IH]; simpl.
  - destruct (decide (k ∈ [])) as [Hin|]; [inversion Hin|reflexivity].
  - destruct (decide (k0 = k)) as [->|Hne]; simpl.
    + destruct (decide (k ∈ k :: map fst d)) as [|Hn]; [reflexivity|].
      exfalso. apply Hn. left.
    + rewrite IH.
      destruct (decide (k ∈ map fst d)) as [Hin|Hnin];
        destruct (decide (k ∈ k0 :: map fst d)) as [Hin'|Hnin']; try reflexivity.
      * exfalso. apply Hnin'. right. exact Hin.
      * exfalso. apply elem_of_cons in Hin' as [->|?]; [congruence|contradiction].
Qed.

(** The entry a key-only test finds first holds the value of its key. *)
Lemma find_dict_get (sel : K -> bool) d k v :
  List.find (fun e => sel (fst e)) d = Some (k, v) -> dict_get d k = Some v.
Proof.
  induction d as [|[k0 v0] d IH]; simpl; [discriminate|].
  destruct (sel k0) eqn:Hs.
  - intros [= -> ->]. destruct (decide (k = k)); congruence.
  - intros Hf. destruct (decide (k0 = k)) as [->|]; [|auto].
    apply find_some in Hf as [_ Hk]. simpl in Hk. congruence.
Qed.
End PyDictFacts.

Lemma find_fst {K V : Type} (sel : K -> bool) (l : list (K * V)) :
  fst <$> List.find (fun e => sel (fst e)) l = List.find sel (map fst l).
Proof.
  induction l as [|[k v] l IH]; simpl; [reflexivity|].
  destruct (sel k); [reflexivity|exact IH].
Qed.

Lemma find_snoc_known {K : Type} (sel : K -> bool) (l : list K) (k : K) :
  k ∈ l -> List.find sel (l ++ [k]) = List.find sel l.
Proof.
  intros Hin. induction l as [|x l IH]; [inversion Hin|]. simpl.
  destruct (sel x) eqn:Hx; [reflexivity|].
  apply elem_of_cons in Hin as [->|Hin]; [|auto].
  clear IH. induction l as [|y l IH]; simpl; [now rewrite Hx|].
  destruct (sel y); [reflexivity|exact IH].
Qed.

(** ** C1: dispatch *)

Section Dispatch.
Import MultiObjectStore.

Lemma registered_snoc regs reg :
  registered (regs ++ [reg]) = add_fs (registered regs) (snd reg) (fst reg).
Proof. unfold registered. rewrite foldl_app. reflexivity. Qed.

Lemma bound_snoc regs reg k :
  bound (regs ++ [reg]) k =
  if decide (fst reg = k) then Some (snd reg) else bound regs k.
Proof.
  induction regs as [|r regs IH]; simpl.
  - reflexivity.
  - rewrite IH. destruct (decide (fst reg = k)); [reflexivity|].
    reflexivity.
Qed.

(** After any registrations, a prefix is bound to the backend of its last
    registration. *)
Lemma registered_get regs k :
  dict_get (map_prefix_fs (registered regs)) k = bound regs k.
Proof.
  induction regs as [|reg regs IH] using rev_ind; [reflexivity|].
  rewrite registered_snoc, bound_snoc. simpl.
  rewrite dict_get_set, IH. reflexivity.
Qed.

Lemma registered_keys_elem regs k :
  k ∈ map fst (map_prefix_fs (registered regs)) <-> k ∈ map fst regs.
Proof.
  induction regs as [|reg regs IH] using rev_ind; [reflexivity|].
  rewrite registered_snoc. simpl. rewrite dict_set_keys, map_app. simpl.
  destruct (decide (fst reg ∈ map fst (map_prefix_fs (registered regs)))) as [Hin|Hnin].
  - rewrite elem_of_app, IH, list_elem_of_singleton.
    split; [auto|]. intros [?| ->]; [assumption|]. apply IH, Hin.
  - rewrite !elem_of_app, IH. reflexivity.
Qed.

(** The keys stand in the order of their first registration, so a test
    on keys finds the same key first in the dict and in the registrations. *)
Lemma registered_find sel regs :
  List.find sel (map fst (map_prefix_fs (registered regs))) =
  List.find sel (map fst regs).
Proof.
  induction regs as [|reg regs IH] using rev_ind; [reflexivity|].
  rewrite registered_snoc. simpl. rewrite dict_set_keys, map_app. simpl.
  destruct (decide (fst reg ∈ map fst (map_prefix_fs (registered regs)))) as [Hin|Hnin].
  - rewrite IH. symmetry. apply find_snoc_known.
    apply registered_keys_elem, Hin.
  - clear Hnin. revert IH.
    generalize (map fst (map_prefix_fs (registered regs))) (map fst regs).
    intros l1 l2 Heq.
    assert (Happ : forall l : list (option string),
               List.find sel (l ++ [fst reg]) =
               match List.find sel l with
               | Some x => Some x
               | None => List.find sel [fst reg]
               end).
    { induction l as [|x l IHl]; simpl; [destruct (sel (fst reg)); reflexivity|].
      destruct (sel x); [reflexivity|exact IHl]. }
    rewrite !Happ, Heq. reflexivity.
Qed.

Lemma fs_find self path :
  _fs self path =
  match List.find (fun e => selects path (fst e)) (map_prefix_fs self) with
  | Some e => inr (snd e)
  | None =>
      match dict_get (map_prefix_fs self) None with
      | Some fs => inr fs
      | None => inl (KeyError None)
      end
  end.
Proof.
  unfold _fs, items.
  induction (map_prefix_fs self) as [|[k v] d IH] at 1 3; simpl; [reflexivity|].
  destruct (selects path k); simpl; [reflexivity|exact IH].
Qed.

End Dispatch.

Lemma bound_fresh regs k : k ∉ map fst regs -> bound regs k = None.
Proof.
  induction regs as [|reg regs IH]; simpl; [reflexivity|].
  intros Hk. apply not_elem_of_cons in Hk as [Hne Hk].
  rewrite (IH Hk). destruct (decide (fst reg = k)); congruence.
Qed.

Lemma bound_distinct regs reg :
  NoDup (map fst regs) -> reg ∈ regs -> bound regs (fst reg) = Some (snd reg).
Proof.
  induction regs as [|r regs IH]; simpl; intros Hnd Hin; [inversion Hin|].
  apply NoDup_cons in Hnd as [Hr Hnd].
  apply elem_of_cons in Hin as [->|Hin].
  - rewrite (bound_fresh _ _ Hr). destruct (decide (fst r = fst r)); congruence.
  - rewrite (IH Hnd Hin). reflexivity.
Qed.

(** When every prefix is registered once, the two rules agree. *)
Lemma dispatch_rule_distinct (regs : list registration) (path : string) :
  NoDup (map fst regs) -> dispatch_rule regs path = first_registered regs path.
Proof.
  intros Hnd. unfold dispatch_rule, first_registered.
  destruct (List.find (fun reg => MultiObjectStore.selects path (fst reg)) regs)
    as [reg|] eqn:Hsel.
  - apply find_some in Hsel as [Hin _]. apply list_elem_of_In in Hin.
    rewrite (bound_distinct _ _ Hnd Hin). reflexivity.
  - destruct (List.find (fun reg => bool_decide (fst reg = None)) regs) as [reg|] eqn:Hdef.
    + apply find_some in Hdef as [Hin Hnone]. apply list_elem_of_In in Hin.
      apply bool_decide_eq_true in Hnone.
      rewrite <- Hnone, (bound_distinct _ _ Hnd Hin). reflexivity.
    + rewrite bound_fresh; [reflexivity|].
      intros Hin. apply list_elem_of_fmap in Hin as [reg [Hk Hin]].
      apply list_elem_of_In in Hin.
      pose proof (find_none _ _ Hdef reg Hin) as Hf. simpl in Hf.
      apply bool_decide_eq_false in Hf. congruence.
Qed.

(** C1, as the code has it: for every sequence of [add_fs] registrations
    and every path, dispatch returns the backend bound, after all the
    registrations, to the first registered non-null prefix that is a
    literal prefix of the path (a later registration under the same prefix
    replaces the backend and keeps the prefix's place); when no non-null
    prefix matches it returns the backend last registered as default, and
    when there is none it fails with [KeyError].  When every prefix is
    registered once, that is the first registered backend whose prefix
    matches, or else the one default. *)
Theorem dispatch_by_first_prefix (regs : list registration) (path : string) :
  MultiObjectStore._fs (MultiObjectStore.registered regs) path = dispatch_rule regs path
  /\ (NoDup (map fst regs) ->
      MultiObjectStore._fs (MultiObjectStore.registered regs) path
      = first_registered regs path).
Proof.
  assert (Hrule : MultiObjectStore._fs (MultiObjectStore.registered regs) path
                  = dispatch_rule regs path).
  { rewrite fs_find. unfold dispatch_rule.
    pose proof (registered_find (MultiObjectStore.selects path) regs) as Hk.
    rewrite <- !find_fst in Hk.
    destruct (List.find _ (MultiObjectStore.map_prefix_fs _)) as [[k v]|] eqn:Hd;
      destruct (List.find (fun reg => MultiObjectStore.selects path (fst reg)) regs)
        as [[k' v']|] eqn:Hr; simpl in Hk; try discriminate.
    - injection Hk as <-. simpl.
      apply find_dict_get in Hd. rewrite registered_get in Hd.
      rewrite Hd. reflexivity.
    - rewrite registered_get. reflexivity. }
  split; [exact Hrule|].
  intros Hnd. rewrite Hrule. apply dispatch_rule_distinct, Hnd.
Qed.

Lemma dispatch_by_first_prefix_witness :
  NoDup [Some "s3://"; None]
  /\ MultiObjectStore._fs fs "s3://bucket/key" = inr S3ObjectStore.as_store
  /\ MultiObjectStore._fs fs "/tmp/key" = inr LocalObjectStore.as_store.
Proof.
  assert (Hnd : NoDup (map fst [(Some "s3://", S3ObjectStore.as_store);
                                (@None string, LocalObjectStore.as_store)])).
  { apply (bool_decide_unpack _). vm_compute. exact I. }
  split; [exact Hnd|]. split.
  - apply (proj2 (dispatch_by_first_prefix
                    [(Some "s3://", S3ObjectStore.as_store); (None, LocalObjectStore.as_store)]
                    "s3://bucket/key") Hnd).
  - apply (proj2 (dispatch_by_first_prefix
                    [(Some "s3://", S3ObjectStore.as_store); (None, LocalObjectStore.as_store)]
                    "/tmp/key") Hnd).
Defined.

(** C1 as worded fails once a prefix is registered twice: the router
    answers with the backend registered last, under a prefix whose place
    was taken by the first registration. *)
Lemma first_registered_fails_on_rebinding :
  MultiObjectStore._fs (MultiObjectStore.registered regs_rebinding) "s3://bucket/key"
    = inr LocalObjectStore.as_store
  /\ first_registered regs_rebinding "s3://bucket/key" = inr S3ObjectStore.as_store
  /\ MultiObjectStore._fs (MultiObjectStore.registered regs_rebinding) "s3://bucket/key"
     <> first_registered regs_rebinding "s3://bucket/key".
Proof.
  split; [reflexivity|]. split; [reflexivity|].
  intros H. apply (f_equal (fun r => match r with
                                     | inr s => Some (ObjectStore.path_join s "a" ["/b"])
                                     | inl _ => None
                                     end)) in H.
  vm_compute in H. discriminate H.
Qed.

(** ** Running programs *)

Section ExecFacts.
Context {E : Type} (medium : handler E).

Lemma exec_bind {A B : Type} (m : Prog A) (f : A -> Prog B) (w : World E) :
  exec medium (m ≫= f) w =
  match res (exec medium m w) with
  | inl e => {| res := inl e; final := final (exec medium m w);
                calls := calls (exec medium m w) |}
  | inr a =>
      {| res := res (exec medium (f a) (final (exec medium m w)));
         final := final (exec medium (f a) (final (exec medium m w)));
         calls := calls (exec medium m w)
                  ++ calls (exec medium (f a) (final (exec medium m w))) |}
  end.
Proof.
  revert w. induction m as [a|e|X c k IH]; intros w.
  - change (Ret a ≫= f) with (f a). simpl. destruct (exec medium (f a) w); reflexivity.
  - reflexivity.
  - change (Call c k ≫= f) with (Call c (fun r => k r ≫= f)). simpl.
    destruct (step medium c w) as [[r w'] ev]. rewrite IH.
    destruct (res (exec medium (k r) w')); simpl; [reflexivity|].
    rewrite app_assoc. reflexivity.
Qed.

(** A program that raises at once issues no call and leaves the world
    as it was. *)
Lemma exec_raise {A : Type} (e : exn) (w : World E) :
  exec medium (@Raise A e) w = {| res := inl e; final := w; calls := [] |}.
Proof. reflexivity. Qed.

(** A single medium call is issued and recorded whatever it answers. *)
Lemma exec_perform_calls {X : Type} (c : call X) (w : World E) :
  match c with dict_getitem _ _ | dict_setitem _ _ _ => False | _ => True end ->
  calls (exec medium (perform c) w) = [Event c].
Proof.
  destruct c; simpl; try contradiction; intros _;
    match goal with |- context [medium ?X ?c ?e] => destruct (medium X c e) as [[?|?] ?] end;
    reflexivity.
Qed.
End ExecFacts.

(** ** C2: the guard before a recursive removal *)

(** X17: The local backend refuses a recursive removal of a path shorter than
    five characters before any call is issued. *)
Lemma local_rm_guard {E : Type} (medium : handler E) (w : World E) (path : string) :
  String.length path < 5 ->
  exec medium (LocalObjectStore.rm path true) w =
  {| res := inl (AssertionError
                   ("You probably didn't intend to recursively remove folder " +:+ path));
     final := w; calls := [] |}.
Proof.
  intros Hlen. unfold LocalObjectStore.rm.
  apply Nat.ltb_lt in Hlen. rewrite Hlen. reflexivity.
Qed.

Lemma local_rm_guard_witness :
  res (exec Medium.medium (LocalObjectStore.rm "/tmp" true) (imported one_file))
  = inl (AssertionError "You probably didn't intend to recursively remove folder /tmp")
  /\ final (exec Medium.medium (LocalObjectStore.rm "/tmp" true) (imported one_file))
     = imported one_file.
Proof.
  rewrite (local_rm_guard Medium.medium (imported one_file) "/tmp"); [|simpl; lia].
  split; reflexivity.
Defined.

(** C2 at the cloud backend: a recursive removal is handed to s3fs as it
    is, on every medium and for every path, however short; for the
    one-character path ["b"] the object stored in bucket [b] of the
    reference medium is gone afterwards. *)
Theorem s3_rm_recursive_short_path_unguarded :
  (forall (E : Type) (medium : handler E) (w : World E) (path : string),
      calls (exec medium (S3ObjectStore.rm path true) w) = [Event (s3fs_rm path true)])
  /\ res (exec Medium.medium (S3ObjectStore.rm "b" true) (imported one_object)) = inr tt
  /\ Medium.objects one_object !! "b/data" = Some [Byte.x2a]
  /\ Medium.objects (ext (final (exec Medium.medium (S3ObjectStore.rm "b" true)
                                      (imported one_object)))) !! "b/data" = None.
Proof.
  split.
  - intros E medium w path. apply exec_perform_calls. exact I.
  - repeat split; vm_compute; reflexivity.
Qed.

(** ** Sorting *)

Lemma insert_sorted_perm (x : string) (l : list string) :
  Permutation (x :: l) (insert_sorted x l).
Proof.
  induction l as [|y l IH]; simpl; [reflexivity|].
  destruct (String.leb x y); [reflexivity|].
  rewrite Permutation_swap. constructor. exact IH.
Qed.

Lemma sorted_perm (l : list string) : Permutation l (sorted l).
Proof.
  induction l as [|x l IH]; simpl; [reflexivity|].
  rewrite <- insert_sorted_perm. constructor. exact IH.
Qed.

Lemma insert_sorted_ascending (x : string) (l : list string) :
  Sorted String.le l -> Sorted String.le (insert_sorted x l).
Proof.
  induction 1 as [|y l Hl IH Hhd]; simpl; [repeat constructor|].
  destruct (String.leb x y) eqn:Hxy.
  - constructor; [constructor; assumption|]. constructor.
    unfold String.le. rewrite Hxy. exact I.
  - constructor; [exact IH|].
    assert (Hyx : String.le y x).
    { unfold String.le. destruct (String.leb_total x y) as [H|H]; [congruence|].
      rewrite H. exact I. }
    destruct l as [|z l]; simpl; [constructor; exact Hyx|].
    destruct (String.leb x z); constructor; [exact Hyx|].
    inversion Hhd; assumption.
Qed.

(** [sorted] returns its argument in ascending order. *)
Lemma sorted_ascending (l : list string) : Sorted String.le (sorted l).
Proof.
  induction l as [|x l IH]; simpl; [constructor|].
  apply insert_sorted_ascending, IH.
Qed.

(** ** C3 and C5: the filtered cloud listing *)

(** What [_ls_query] does with a complete response: keys, then common
    prefixes, each without its trailing separator and with scheme and
    bucket in front. *)
Lemma s3_ls_query_files_complete (bucket : string) (rsp : ListObjectsV2Output) :
  IsTruncated rsp = false ->
  S3ObjectStore._ls_query_files bucket rsp =
  Ret (map (fun f => "s3://" +:+ bucket +:+ "/" +:+
                     (if endswith f "/" then slice_to_last f else f))
           (default [] (Contents rsp) ++ default [] (CommonPrefixes rsp))).
Proof.
  intros Hc. unfold S3ObjectStore._ls_query_files. rewrite Hc.
  rewrite map_map. f_equal. f_equal.
  destruct (Contents rsp), (CommonPrefixes rsp); simpl; rewrite ?app_nil_r; reflexivity.
Qed.

(** The helper issues one listing call: bucket and key split off the path,
    the delimiter empty exactly when [recursive] holds. *)
Lemma s3_ls_query_call (path prefix bucket key : string) (recursive : bool) :
  S3ObjectStore._split_path path = Ret (bucket, key) ->
  S3ObjectStore._ls_query path prefix recursive =
  (rsp ← perform (s3_list_objects_v2 bucket (if recursive then "" else "/") (key +:+ prefix));
   S3ObjectStore._ls_query_files bucket rsp).
Proof.
  intros Hs. unfold S3ObjectStore._ls_query. rewrite Hs.
  destruct recursive; reflexivity.
Qed.

Lemma s3_split_path_bucket_key :
  S3ObjectStore._split_path "s3://bucket/folder/key" = Ret ("bucket", "folder/key").
Proof. reflexivity. Qed.

(** Without a query the cloud listing is what s3fs lists, with the
    scheme in front, in ascending order. *)
Lemma s3_ls_plain {E : Type} (medium : handler E) (w : World E)
    (path : string) (names : list string) (e' : E) :
  medium _ (s3fs_ls path) (ext w) = (inr names, e') ->
  res (exec medium (S3ObjectStore.ls path None) w)
    = inr (sorted (map (fun f => "s3://" +:+ f) names))
  /\ Sorted String.le (sorted (map (fun f => "s3://" +:+ f) names)).
Proof.
  intros Hm. split; [|apply sorted_ascending].
  unfold S3ObjectStore.ls. rewrite exec_bind. simpl. rewrite Hm. reflexivity.
Qed.

(** C3 on the code: with any query the public listing of the cloud backend
    calls its helper without arguments and raises [TypeError]; no listing
    call is issued and nothing is returned. *)
Theorem s3_ls_with_query_raises {E : Type} (medium : handler E) (w : World E)
    (path : string) (q : S3Query) :
  exec medium (S3ObjectStore.ls path (Some q)) w =
  {| res := inl (TypeError
       "_ls_query() missing 2 required positional arguments: 'path' and 'prefix'");
     final := w; calls := [] |}.
Proof. reflexivity. Qed.

(** C5: when the listing call that [_ls_query] issues for a path, prefix
    and recursion flag is answered with a truncated response, the helper
    raises the "not supported" [AssertionError]; no list is returned. *)
Theorem s3_truncated_listing_raises {E : Type} (medium : handler E) (w : World E)
    (path prefix bucket key : string) (recursive : bool)
    (rsp : ListObjectsV2Output) (e' : E) :
  S3ObjectStore._split_path path = Ret (bucket, key) ->
  medium _ (s3_list_objects_v2 bucket (if recursive then "" else "/") (key +:+ prefix)) (ext w)
    = (inr rsp, e') ->
  IsTruncated rsp = true ->
  exec medium (S3ObjectStore._ls_query path prefix recursive) w =
  {| res := inl (AssertionError "Truncated responses not supported yet");
     final := {| heap := heap w; ext := e' |};
     calls := [Event (s3_list_objects_v2 bucket (if recursive then "" else "/")
                                         (key +:+ prefix))] |}.
Proof.
  intros Hs Hm Ht. rewrite (s3_ls_query_call _ _ _ _ _ Hs).
  rewrite exec_bind. simpl. rewrite Hm. simpl.
  unfold S3ObjectStore._ls_query_files. rewrite Ht. reflexivity.
Qed.

Lemma s3_truncated_listing_raises_witness :
  res (exec Medium.medium (S3ObjectStore._ls_query "s3://bucket/folder/" "k" false)
            (imported truncating))
  = inl (AssertionError "Truncated responses not supported yet").
Proof.
  rewrite (s3_truncated_listing_raises Medium.medium (imported truncating)
             "s3://bucket/folder/" "k" "bucket" "folder/" false
             {| IsTruncated := true; Contents := Some ["k/a"]; CommonPrefixes := None |}
             truncating);
    reflexivity.
Defined.

(** ** C4: what the router forwards *)

Section Delegation.
Import MultiObjectStore.
Variables (self : t) (backend : ObjectStore.t) (path : string).
Hypothesis Hsel : _fs self path = inr backend.

Lemma router_get_object : get_object self path = ObjectStore.get_object backend path.
Proof. unfold get_object. rewrite Hsel. reflexivity. Qed.

Lemma router_exists : exists_ self path = ObjectStore.exists_ backend path.
Proof. unfold exists_. rewrite Hsel. reflexivity. Qed.

Lemma router_rm recursive : rm self path recursive = ObjectStore.rm backend path recursive.
Proof. unfold rm. rewrite Hsel. reflexivity. Qed.

Lemma router_open mode : open_ self path mode = ObjectStore.open_ backend path mode.
Proof. unfold open_. rewrite Hsel. reflexivity. Qed.

Lemma router_path_join paths :
  path_join self path paths = ObjectStore.path_join backend path paths.
Proof. unfold path_join. rewrite Hsel. reflexivity. Qed.

Lemma router_put_object data :
  put_object self path data = (ObjectStore.put_object backend path data;; Ret VNone).
Proof. unfold put_object. rewrite Hsel. reflexivity. Qed.

(** The listing reaches the backend without the query. *)
Lemma router_ls query : ls self path query = ObjectStore.ls backend path None.
Proof. unfold ls. rewrite Hsel. reflexivity. Qed.
End Delegation.

(** C4 on the code: the router's [ls] never looks at its query, so with a
    backend that answers with the query it receives the router answers
    [None] where the backend, asked directly, answers with the query; and
    on the facade a listing with a query is the local backend's plain
    listing, where the local backend asked directly raises. *)
Theorem router_ls_drops_query (q : S3Query) :
  (forall self path, MultiObjectStore.ls self path (Some q) = MultiObjectStore.ls self path None)
  /\ MultiObjectStore.ls (MultiObjectStore.add_fs MultiObjectStore.init probe None)
       "/tmp" (Some q) = Ret VNone
  /\ ObjectStore.ls probe "/tmp" (Some q) = Ret (VQ q)
  /\ MultiObjectStore.ls fs "/tmp" (Some q) = ObjectStore.ls LocalObjectStore.as_store "/tmp" None
  /\ ObjectStore.ls LocalObjectStore.as_store "/tmp" (Some q)
     = Raise (TypeError "_ls_query() missing 1 required positional argument: 'prefix'").
Proof. repeat split; reflexivity. Qed.

(** ** C6, C7 and C10: writing and reading back *)

Lemma inmemory_getattr (a : nat) :
  InMemoryObjectStore.getattr (InMemoryObjectStore.new a) "perPath_data"
  = Ret InMemoryObjectStore.perPath_data_loc.
Proof. reflexivity. Qed.

Lemma inmemory_put_object_call (a : nat) (path : string) (data : bytes) :
  InMemoryObjectStore.put_object (InMemoryObjectStore.new a) path data
  = perform (dict_setitem InMemoryObjectStore.perPath_data_loc path data).
Proof. unfold InMemoryObjectStore.put_object. rewrite inmemory_getattr. reflexivity. Qed.

Lemma inmemory_get_object_call (a : nat) (path : string) :
  InMemoryObjectStore.get_object (InMemoryObjectStore.new a) path
  = perform (dict_getitem InMemoryObjectStore.perPath_data_loc path).
Proof. unfold InMemoryObjectStore.get_object. rewrite inmemory_getattr. reflexivity. Qed.

(** On the in-memory backend what one instance puts, any instance gets. *)
Lemma inmemory_put_get {E : Type} (medium : handler E) (w : World E)
    (a b : nat) (path : string) (data : bytes) :
  res (exec medium
         (InMemoryObjectStore.put_object (InMemoryObjectStore.new a) path data;;
          InMemoryObjectStore.get_object (InMemoryObjectStore.new b) path) w)
  = inr data.
Proof.
  rewrite inmemory_put_object_call, inmemory_get_object_call, exec_bind.
  simpl. rewrite lookup_insert_eq. simpl. rewrite lookup_insert_eq. reflexivity.
Qed.

(** On the reference medium, a file of the test folder is read back as
    written, by the local and by the cloud backend. *)
Lemma local_put_get_in_folder (data : bytes) :
  res (exec Medium.medium
         (LocalObjectStore.put_object "/tmp/py-simple-s3-fs/tests/my_file.txt" data;;
          LocalObjectStore.get_object "/tmp/py-simple-s3-fs/tests/my_file.txt")
         (imported Medium.empty))
  = inr data.
Proof. vm_compute. reflexivity. Qed.

Lemma s3_put_get (data : bytes) :
  res (exec Medium.medium
         (S3ObjectStore.put_object "s3://bucket/folder1/my_file.txt" data;;
          S3ObjectStore.get_object "s3://bucket/folder1/my_file.txt")
         (imported Medium.empty))
  = inr data.
Proof. vm_compute. reflexivity. Qed.

(** The directory an [open] for writing creates first is never the empty
    one; [put_object] has no such test. *)
Lemma local_open_bare_filename {E : Type} (medium : handler E) (w : World E) :
  calls (exec medium (LocalObjectStore.open_ "my_file.txt" "wb") w)
  = [Event (builtin_open "my_file.txt" "wb")].
Proof.
  simpl. destruct (medium handle (builtin_open "my_file.txt" "wb") (ext w)) as [[?|?] ?];
    reflexivity.
Qed.

(** C6 at the local backend: for a file name without a directory,
    [put_object] first asks [os.makedirs] for the empty path, on every
    medium; on the reference medium that call raises, nothing is written,
    and the read that follows is never reached. *)
Theorem local_put_object_bare_filename_raises (data : bytes) :
  os_path_dirname "my_file.txt" = ""
  /\ (forall (E : Type) (medium : handler E) (w : World E),
        head (calls (exec medium (LocalObjectStore.put_object "my_file.txt" data) w))
        = Some (Event (os_makedirs "" true)))
  /\ (forall w : World Medium.t,
        exec Medium.medium
          (LocalObjectStore.put_object "my_file.txt" data;;
           LocalObjectStore.get_object "my_file.txt") w
        = {| res := inl (FileNotFoundError ""); final := w;
             calls := [Event (os_makedirs "" true)] |}).
Proof.
  split; [reflexivity|]. split.
  - intros E medium w. unfold LocalObjectStore.put_object.
    change (os_path_dirname "my_file.txt") with "".
    rewrite exec_bind.
    pose proof (exec_perform_calls medium (os_makedirs "" true) w I) as Hc.
    destruct (res (exec medium (perform (os_makedirs "" true)) w));
      cbn [calls]; rewrite Hc; reflexivity.
  - intros [h m]. reflexivity.
Qed.

(** C7 on the code: on the in-memory backend [exists] answers [None]
    before and after a [put_object], and [rm] removes nothing: the object
    is still read back after it. *)
Theorem inmemory_exists_and_rm_are_stubs {E : Type} (medium : handler E) (w : World E)
    (oid : nat) (path : string) (data : bytes) :
  res (exec medium (InMemoryObjectStore.exists_ (InMemoryObjectStore.new oid) path) w)
    = inr VNone
  /\ res (exec medium
            (InMemoryObjectStore.put_object (InMemoryObjectStore.new oid) path data;;
             InMemoryObjectStore.exists_ (InMemoryObjectStore.new oid) path) w)
     = inr VNone
  /\ truthy VNone = false
  /\ res (exec medium
            (InMemoryObjectStore.put_object (InMemoryObjectStore.new oid) path data;;
             InMemoryObjectStore.rm (InMemoryObjectStore.new oid) path false;;
             InMemoryObjectStore.get_object (InMemoryObjectStore.new oid) path) w)
     = inr data.
Proof.
  repeat split.
  unfold InMemoryObjectStore.rm.
  rewrite inmemory_put_object_call, inmemory_get_object_call, exec_bind.
  simpl. rewrite lookup_insert_eq. simpl. rewrite lookup_insert_eq. reflexivity.
Qed.

(** C10: [self.perPath_data] is found on the class by every instance, so
    for any two instances, whatever their identity, and in any state of
    the interpreter, what one puts under a path the other gets. *)
Theorem inmemory_store_is_shared {E : Type} (medium : handler E) (w : World E)
    (a b : nat) (path : string) (data : bytes) :
  InMemoryObjectStore.getattr (InMemoryObjectStore.new a) "perPath_data"
    = InMemoryObjectStore.getattr (InMemoryObjectStore.new b) "perPath_data"
  /\ res (exec medium
            (InMemoryObjectStore.put_object (InMemoryObjectStore.new a) path data;;
             InMemoryObjectStore.get_object (InMemoryObjectStore.new b) path) w)
     = inr data.
Proof. split; [reflexivity|apply inmemory_put_get]. Qed.

(** ** C8: the batch existence check *)

(** C8: on a backend whose [exists] answers without changing the world,
    [exists_list] returns the input paths for which the answer is true,
    in the order of the input, and leaves the world as it was. *)
Theorem exists_list_filters {E : Type} (medium : handler E) (self : ObjectStore.t)
    (w : World E) (answer : string -> value) (paths : list string) :
  (forall p, p ∈ paths ->
     res (exec medium (ObjectStore.exists_ self p) w) = inr (answer p)
     /\ final (exec medium (ObjectStore.exists_ self p) w) = w) ->
  res (exec medium (ObjectStore.exists_list self paths) w)
    = inr (List.filter (fun p => truthy (answer p)) paths)
  /\ final (exec medium (ObjectStore.exists_list self paths) w) = w.
Proof.
  induction paths as [|p paths IH]; intros Hobs; [split; reflexivity|].
  destruct (Hobs p) as [Hres Hfin]; [left|].
  destruct IH as [IHres IHfin]; [intros q Hq; apply Hobs; right; exact Hq|].
  cbn [ObjectStore.exists_list].
  rewrite exec_bind, Hres, Hfin. cbn [res final].
  rewrite exec_bind, IHres, IHfin. cbn [res final exec].
  split; [|reflexivity]. simpl.
  destruct (truthy (answer p)); reflexivity.
Qed.

Lemma exists_list_filters_witness :
  res (exec Medium.medium
         (ObjectStore.exists_list LocalObjectStore.as_store
            ["/tmp/t/f1.txt"; "/tmp/t/f2.txt"; "/tmp/t"])
         (imported one_file))
  = inr ["/tmp/t/f1.txt"; "/tmp/t"].
Proof.
  apply (exists_list_filters Medium.medium LocalObjectStore.as_store (imported one_file)
           (fun p => VBool (negb (String.eqb p "/tmp/t/f2.txt")))
           ["/tmp/t/f1.txt"; "/tmp/t/f2.txt"; "/tmp/t"]).
  intros p Hp.
  repeat (apply elem_of_cons in Hp as [->|Hp]; [split; vm_compute; reflexivity|]).
  inversion Hp.
Defined.

(** ** C9: joining path segments *)

Section Separators.

Lemma startswith_sep_cons (c : ascii) (s : string) :
  startswith (String c s) "/" = Ascii.eqb c "/".
Proof.
  unfold startswith.
  change (String.prefix "/" (String c s))
    with (if ascii_dec "/" c then String.prefix "" s else false).
  destruct (ascii_dec "/" c) as [Heq|Hne].
  - subst c. destruct s; reflexivity.
  - symmetry. apply Ascii.eqb_neq. congruence.
Qed.

Lemma startswith_sep_app (s t : string) :
  s <> "" -> startswith (s +:+ t) "/" = startswith s "/".
Proof.
  destruct s as [|c s]; [congruence|]. intros _.
  change (String c s +:+ t) with (String c (s +:+ t)).
  rewrite !startswith_sep_cons. reflexivity.
Qed.

Lemma endswith_sep_cons (c : ascii) (s : string) :
  endswith (String c s) "/" = (Ascii.eqb c "/" && String.eqb s "") || endswith s "/".
Proof. reflexivity. Qed.

Lemma endswith_sep_app_sep (s : string) : endswith (s +:+ "/") "/" = true.
Proof.
  induction s as [|c s IH]; [reflexivity|].
  change (String c s +:+ "/") with (String c (s +:+ "/")).
  rewrite endswith_sep_cons, IH. apply orb_true_r.
Qed.

Lemma endswith_close_segment (s : string) : endswith (close_segment s) "/" = true.
Proof.
  unfold close_segment. destruct (endswith s "/") eqn:He; [exact He|].
  apply endswith_sep_app_sep.
Qed.

(** Doubled separators of a concatenation: those of the parts, and one
    more when a separator meets a separator at the seam. *)
Lemma count_double_sep_app (s t : string) :
  count_double_sep (s +:+ t) =
  count_double_sep s + count_double_sep t
  + (if endswith s "/" && startswith t "/" then 1 else 0).
Proof.
  induction s as [|c s IH].
  - change ("" +:+ t) with t. change (endswith "" "/") with false.
    cbn [count_double_sep andb]. lia.
  - change (String c s +:+ t) with (String c (s +:+ t)).
    cbn [count_double_sep]. rewrite IH, endswith_sep_cons.
    destruct s as [|c' s].
    + change ("" +:+ t) with t. change (endswith "" "/") with false.
      change (startswith "" "/") with false.
      change ("" =? "") with true.
      rewrite orb_false_r, andb_true_r, andb_false_r. cbn [count_double_sep andb].
      destruct (Ascii.eqb c "/"), (startswith t "/"); simpl; lia.
    + rewrite startswith_sep_app by discriminate.
      change (String c' s =? "") with false.
      rewrite andb_false_r, orb_false_l. lia.
Qed.

Lemma count_close_segment (s : string) :
  count_double_sep (close_segment s) = count_double_sep s.
Proof.
  unfold close_segment. destruct (endswith s "/") eqn:He; [reflexivity|].
  rewrite count_double_sep_app, He. simpl. lia.
Qed.

Lemma close_segment_non_empty (s : string) : close_segment s <> "".
Proof.
  unfold close_segment. destruct (endswith s "/") eqn:He.
  - destruct s; [discriminate He|discriminate].
  - destruct s; discriminate.
Qed.

Lemma startswith_glue (s : string) (rest : list string) :
  s <> "" -> startswith (glue (s :: rest)) "/" = startswith s "/".
Proof.
  intros Hs. destruct rest as [|s' rest]; [reflexivity|].
  cbn [glue]. rewrite startswith_sep_app by apply close_segment_non_empty.
  unfold close_segment. destruct (endswith s "/"); [reflexivity|].
  apply startswith_sep_app, Hs.
Qed.

(** Glueing segments makes a doubled separator only where a segment
    after the first begins with one. *)
Lemma count_glue (segments : list string) :
  Forall (fun s => s <> "") segments ->
  Forall (fun s => startswith s "/" = false) (tl segments) ->
  count_double_sep (glue segments) = list_sum (map count_double_sep segments).
Proof.
  induction segments as [|s rest IH]; [reflexivity|].
  intros Hne Htl. destruct rest as [|s' rest]; [simpl; lia|].
  apply Forall_cons in Hne as [_ Hne]. simpl in Htl.
  change (glue (s :: s' :: rest)) with (close_segment s +:+ glue (s' :: rest)).
  rewrite count_double_sep_app, count_close_segment, endswith_close_segment.
  pose proof Hne as Hne'. apply Forall_cons in Hne' as [Hs' _].
  pose proof Htl as Htl'. apply Forall_cons in Htl' as [Hst Htl'].
  rewrite (startswith_glue _ _ Hs'), Hst. cbn [andb].
  rewrite IH by assumption. unfold list_sum. cbn [map fold_right]. lia.
Qed.

Lemma path_join_loop (done todo : list string) :
  foldl S3ObjectStore.path_join_step (done ++ todo)
        (seq (length done) (length todo - 1))
  = done ++ match todo with
            | [] => []
            | _ :: _ => map close_segment (removelast todo) ++ [List.last todo ""]
            end.
Proof.
  revert done. induction todo as [|s rest IH]; intros done; [reflexivity|].
  destruct rest as [|s' rest]; [reflexivity|].
  replace (length (s :: s' :: rest) - 1) with (S (length (s' :: rest) - 1))
    by (simpl; lia).
  cbn [seq foldl].
  assert (Hstep : S3ObjectStore.path_join_step (done ++ s :: s' :: rest) (length done)
                  = (done ++ [close_segment s]) ++ s' :: rest).
  { unfold S3ObjectStore.path_join_step, close_segment.
    rewrite list_lookup_middle by reflexivity.
    destruct (endswith s "/"); simpl.
    - rewrite <- app_assoc. reflexivity.
    - rewrite insert_app_r_alt by lia. rewrite Nat.sub_diag. simpl.
      rewrite <- app_assoc. reflexivity. }
  rewrite Hstep.
  replace (S (length done)) with (length (done ++ [close_segment s]))
    by (rewrite length_app; simpl; lia).
  rewrite IH. rewrite <- app_assoc. reflexivity.
Qed.

Lemma join_closed (segments : list string) :
  join "" match segments with
          | [] => []
          | _ :: _ => map close_segment (removelast segments) ++ [List.last segments ""]
          end
  = glue segments.
Proof.
  induction segments as [|s rest IH]; [reflexivity|].
  destruct rest as [|s' rest]; [reflexivity|].
  change (glue (s :: s' :: rest)) with (close_segment s +:+ glue (s' :: rest)).
  rewrite <- IH. destruct rest; reflexivity.
Qed.

(** The loop of [path_join], in closed form. *)
Lemma path_join_glue (p : string) (paths : list string) :
  S3ObjectStore.path_join p paths = glue (non_empty (p :: paths)).
Proof.
  unfold S3ObjectStore.path_join. fold (non_empty (p :: paths)).
  generalize (non_empty (p :: paths)) as segments. intros segments.
  pose proof (path_join_loop [] segments) as Hloop. simpl in Hloop.
  cbv zeta. rewrite Hloop. apply join_closed.
Qed.
End Separators.

Lemma Forall_list_filter {A : Type} (P : A -> Prop) (f : A -> bool) (l : list A) :
  Forall P l -> Forall P (List.filter f l).
Proof.
  induction 1 as [|x l Hx Hl IH]; simpl; [constructor|].
  destruct (f x); [constructor; assumption|assumption].
Qed.

Lemma non_empty_spec (segments : list string) :
  Forall (fun s => s <> "") (non_empty segments).
Proof.
  induction segments as [|s rest IH]; simpl; [constructor|].
  destruct (String.eqb_spec s ""); simpl; [assumption|constructor; assumption].
Qed.

Lemma count_non_empty (segments : list string) :
  list_sum (map count_double_sep (non_empty segments))
  = list_sum (map count_double_sep segments).
Proof.
  induction segments as [|s rest IH]; [reflexivity|]. simpl.
  destruct (String.eqb_spec s "") as [->|]; simpl; rewrite IH; reflexivity.
Qed.

Lemma append_assoc (s t u : string) : (s +:+ t) +:+ u = s +:+ t +:+ u.
Proof.
  induction s as [|c s IH]; [reflexivity|].
  change (String c ((s +:+ t) +:+ u) = String c (s +:+ t +:+ u)).
  rewrite IH. reflexivity.
Qed.

(** For segments that do not end in a separator, glueing is joining with
    one separator between neighbours. *)
Lemma glue_plain (segments : list string) :
  Forall (fun s => endswith s "/" = false) segments ->
  glue segments = join "/" segments.
Proof.
  induction 1 as [|s rest Hs Hrest IH]; [reflexivity|].
  destruct rest as [|s' rest]; [reflexivity|].
  change (glue (s :: s' :: rest)) with (close_segment s +:+ glue (s' :: rest)).
  rewrite IH. unfold close_segment. rewrite Hs.
  unfold join. cbn [String.concat].
  rewrite append_assoc. reflexivity.
Qed.

(** X29: when none of the segments after the first begins with a
    separator, [path_join] returns the non-empty segments, each but the
    last followed by one separator (its own when it ends in one), and the
    result has the doubled separators of its segments and no other. *)
Theorem s3_path_join_separators (p : string) (paths : list string) :
  Forall (fun s => startswith s "/" = false) paths ->
  S3ObjectStore.path_join p paths = glue (non_empty (p :: paths))
  /\ count_double_sep (S3ObjectStore.path_join p paths)
     = list_sum (map count_double_sep (p :: paths)).
Proof.
  intros Hlead. rewrite path_join_glue. split; [reflexivity|].
  rewrite count_glue, count_non_empty; [reflexivity|apply non_empty_spec|].
  unfold non_empty. cbn [List.filter].
  destruct (negb (p =? "")).
  - cbn [tl]. apply Forall_list_filter, Hlead.
  - apply (Forall_list_filter _ (fun s => negb (String.eqb s ""))) in Hlead.
    destruct Hlead; [constructor|assumption].
Qed.

Lemma s3_path_join_separators_witness :
  S3ObjectStore.path_join "s3://bucket/" [""; "folder/"; "wee.txt"]
    = "s3://bucket/folder/wee.txt"
  /\ count_double_sep (S3ObjectStore.path_join "s3://bucket/" [""; "folder/"; "wee.txt"]) = 1.
Proof.
  destruct (s3_path_join_separators "s3://bucket/" [""; "folder/"; "wee.txt"]) as [Hj Hc].
  - repeat constructor.
  - split; [rewrite Hj; reflexivity|rewrite Hc; reflexivity].
Defined.

(** C9 as worded fails when a segment begins with a separator: the join
    puts its own in front of it. *)
Lemma s3_path_join_doubles_separator : ~ join_never_doubles.
Proof.
  intros H. specialize (H "a" ["/b"]). vm_compute in H. inversion H.
Qed.

(** C9 on the code: [path_join] looks only at the end of the segment on
    the left.  Joining ["a"] and ["/b"] gives ["a//b"], and in general a
    non-empty segment followed by a segment that begins with a separator
    is joined with one doubled separator more than the two segments
    hold, whether or not the left segment already ends in a separator;
    the join itself is, for every list of segments, the non-empty ones
    with each but the last closed by a separator. *)
Theorem s3_path_join_doubles_before_leading_separator :
  S3ObjectStore.path_join "a" ["/b"] = "a//b"
  /\ (forall (c : ascii) (s t : string),
        count_double_sep (S3ObjectStore.path_join (String c s) [String "/" t])
        = count_double_sep (String c s) + count_double_sep (String "/" t) + 1)
  /\ (forall (p : string) (paths : list string),
        S3ObjectStore.path_join p paths = glue (non_empty (p :: paths))).
Proof.
  split; [reflexivity|]. split; [|apply path_join_glue].
  intros c s t. rewrite path_join_glue.
  change (non_empty [String c s; String "/" t]) with [String c s; String "/" t].
  change (glue [String c s; String "/" t])
    with (close_segment (String c s) +:+ String "/" t).
  rewrite count_double_sep_app, count_close_segment, endswith_close_segment,
    startswith_sep_cons.
  reflexivity.
Qed.

(** * Further properties of the module *)

(** ** The router's table *)

Section PyDictInvariant.
Context {K V : Type} `{EqDecision K}.
Implicit Types (d : pydict K V) (k : K) (v : V).

Lemma dict_set_nodup d k v :
  NoDup (map fst d) -> NoDup (map fst (dict_set d k v)).
Proof.
  intros Hnd. rewrite dict_set_keys.
  destruct (decide (k ∈ map fst d)) as [Hin|Hnin]; [exact Hnd|].
  apply NoDup_app. split; [exact Hnd|]. split.
  - intros x Hx Hx'. apply list_elem_of_singleton in Hx'. subst x. contradiction.
  - apply NoDup_singleton.
Qed.

(** A test that depends on the key only, and rejects [k], finds the same
    entry before and after an assignment to [k]. *)
Lemma find_dict_set_other (sel : K -> bool) d k v :
  sel k = false ->
  List.find (fun e => sel (fst e)) (dict_set d k v) = List.find (fun e => sel (fst e)) d.
Proof.
  intros Hk. induction d as [|[k0 v0] d IH]; simpl.
  - rewrite Hk. reflexivity.
  - destruct (decide (k0 = k)) as [->|Hne]; simpl.
    + rewrite Hk. reflexivity.
    + rewrite IH. reflexivity.
Qed.
End PyDictInvariant.

(** X1: The table of a router never holds a prefix twice, whatever was
    registered and in whatever order; in particular it holds at most one
    default. *)
Theorem registered_prefixes_unique (regs : list registration) :
  NoDup (map fst (MultiObjectStore.map_prefix_fs (MultiObjectStore.registered regs))).
Proof.
  induction regs as [|reg regs IH] using rev_ind; [constructor|].
  rewrite registered_snoc. simpl. apply dict_set_nodup, IH.
Qed.

Lemma fs_registered_rule (regs : list registration) (path : string) :
  MultiObjectStore._fs (MultiObjectStore.registered regs) path = dispatch_rule regs path.
Proof.
  rewrite fs_find. unfold dispatch_rule.
  pose proof (registered_find (MultiObjectStore.selects path) regs) as Hk.
  rewrite <- !find_fst in Hk.
  destruct (List.find _ (MultiObjectStore.map_prefix_fs _)) as [[k v]|] eqn:Hd;
    destruct (List.find (fun reg => MultiObjectStore.selects path (fst reg)) regs)
      as [[k' v']|] eqn:Hr; simpl in Hk; try discriminate.
  - injection Hk as <-. simpl.
    apply find_dict_get in Hd. rewrite registered_get in Hd.
    rewrite Hd. reflexivity.
  - rewrite registered_get. reflexivity.
Qed.

Lemma bound_registered regs k : k ∈ map fst regs -> is_Some (bound regs k).
Proof.
  induction regs as [|reg regs IH]; simpl; intros Hin; [inversion Hin|].
  destruct (bound regs k) as [b|] eqn:Hb; [eexists; reflexivity|].
  apply elem_of_cons in Hin as [->|Hin].
  - destruct (decide (fst reg = fst reg)); [eexists; reflexivity|congruence].
  - destruct (IH Hin) as [? ?]. discriminate.
Qed.

(** X2: Dispatch fails exactly when no registered non-null prefix is a prefix
    of the path and no default was ever registered, and then with
    [KeyError(None)]; in every other case it returns a backend. *)
Theorem dispatch_fails_without_match_and_default (regs : list registration) (path : string) :
  match MultiObjectStore._fs (MultiObjectStore.registered regs) path with
  | inl e =>
      e = KeyError None
      /\ Forall (fun reg => MultiObjectStore.selects path (fst reg) = false
                            /\ fst reg <> None) regs
  | inr _ =>
      Exists (fun reg => MultiObjectStore.selects path (fst reg) = true
                         \/ fst reg = None) regs
  end.
Proof.
  rewrite fs_registered_rule. unfold dispatch_rule.
  destruct (List.find (fun reg => MultiObjectStore.selects path (fst reg)) regs)
    as [reg|] eqn:Hsel.
  - apply find_some in Hsel as [Hin Hs]. apply List.Exists_exists.
    exists reg. split; [exact Hin|left; exact Hs].
  - destruct (bound regs None) as [b|] eqn:Hb.
    + apply List.Exists_exists.
      destruct (decide (None ∈ map fst regs)) as [Hin|Hnin].
      * apply list_elem_of_fmap in Hin as [reg [Hk Hin]].
        exists reg. split; [apply list_elem_of_In, Hin|right; congruence].
      * rewrite (bound_fresh _ _ Hnin) in Hb. discriminate.
    + split; [reflexivity|]. apply List.Forall_forall. intros reg Hin. split.
      * apply (find_none _ _ Hsel reg Hin).
      * intros Hnone.
        destruct (bound_registered regs None) as [b' Hb']; [|congruence].
        apply list_elem_of_fmap. exists reg. split; [congruence|].
        apply list_elem_of_In, Hin.
Qed.

(** X3: Registering a backend under a prefix changes nothing for the paths
    that do not begin with that prefix. *)
Theorem add_fs_leaves_other_paths (self : MultiObjectStore.t) (backend : ObjectStore.t)
    (prefix path : string) :
  startswith path prefix = false ->
  MultiObjectStore._fs (MultiObjectStore.add_fs self backend (Some prefix)) path
  = MultiObjectStore._fs self path.
Proof.
  intros Hp. rewrite !fs_find. simpl.
  rewrite (find_dict_set_other (MultiObjectStore.selects path)) by exact Hp.
  rewrite dict_get_set. destruct (decide (Some prefix = None)); [discriminate|reflexivity].
Qed.

Lemma add_fs_leaves_other_paths_witness :
  MultiObjectStore._fs (MultiObjectStore.add_fs fs probe (Some "mem://")) "s3://bucket/key"
  = inr S3ObjectStore.as_store.
Proof.
  rewrite (add_fs_leaves_other_paths fs probe "mem://" "s3://bucket/key"); reflexivity.
Defined.

(** X4: Registering a default makes it the answer for every path that no
    non-null prefix of the table matches, replacing an earlier default. *)
Theorem add_fs_default_catches_rest (self : MultiObjectStore.t) (backend : ObjectStore.t)
    (path : string) :
  Forall (fun entry => MultiObjectStore.selects path (fst entry) = false)
         (MultiObjectStore.map_prefix_fs self) ->
  MultiObjectStore._fs (MultiObjectStore.add_fs self backend None) path = inr backend.
Proof.
  intros Hnone. rewrite fs_find. simpl.
  rewrite (find_dict_set_other (MultiObjectStore.selects path)) by reflexivity.
  rewrite dict_get_set.
  destruct (List.find _ (MultiObjectStore.map_prefix_fs self)) as [e|] eqn:Hf.
  - apply find_some in Hf as [Hin Hs].
    rewrite List.Forall_forall in Hnone. rewrite (Hnone e Hin) in Hs. discriminate.
  - destruct (decide (@None string = None)); [reflexivity|congruence].
Qed.

Lemma add_fs_default_catches_rest_witness :
  MultiObjectStore._fs (MultiObjectStore.add_fs fs probe None) "/tmp/key" = inr probe.
Proof.
  apply (add_fs_default_catches_rest fs probe "/tmp/key").
  repeat constructor.
Defined.

(** ** The facade *)

Lemma fs_facade (path : string) :
  MultiObjectStore._fs fs path
  = inr (if startswith path "s3://" then S3ObjectStore.as_store
         else LocalObjectStore.as_store).
Proof.
  rewrite fs_find. simpl. destruct (startswith path "s3://"); reflexivity.
Qed.

(** X5: The facade never fails to dispatch: a path that begins with ["s3://"]
    goes to the cloud backend, every other path to the local one. *)
Theorem facade_dispatch (path : string) :
  MultiObjectStore._fs fs path
  = inr (if startswith path "s3://" then S3ObjectStore.as_store
         else LocalObjectStore.as_store).
Proof.
  unfold MultiObjectStore._fs, fs, create_multi_object_store. simpl.
  destruct (startswith path "s3://"); reflexivity.
Qed.

Lemma prefix_length (pre s : string) :
  String.prefix pre s = true -> String.length pre <= String.length s.
Proof.
  revert s. induction pre as [|c pre IH]; intros s; simpl; [lia|].
  destruct s as [|c' s]; [discriminate|]. simpl.
  destruct (ascii_dec c c'); [|discriminate].
  intros H. apply IH in H. lia.
Qed.

(** X6: Through the facade the guard covers every short path: a recursive
    removal of a path of fewer than five characters raises before any call
    is issued, since no such path can name a cloud object. *)
Theorem facade_rm_guard {E : Type} (medium : handler E) (w : World E) (path : string) :
  String.length path < 5 ->
  exec medium (MultiObjectStore.rm fs path true) w =
  {| res := inl (AssertionError
                   ("You probably didn't intend to recursively remove folder " +:+ path));
     final := w; calls := [] |}.
Proof.
  intros Hlen. unfold MultiObjectStore.rm. rewrite fs_facade.
  destruct (startswith path "s3://") eqn:Hs.
  - apply prefix_length in Hs. simpl in Hs. lia.
  - cbn [lift]. change (Ret LocalObjectStore.as_store ≫= _)
      with (LocalObjectStore.rm path true;; Ret VNone).
    unfold LocalObjectStore.rm. apply Nat.ltb_lt in Hlen. rewrite Hlen. reflexivity.
Qed.

Lemma facade_rm_guard_witness :
  res (exec Medium.medium (MultiObjectStore.rm fs "/" true) (imported one_file))
  = inl (AssertionError "You probably didn't intend to recursively remove folder /").
Proof.
  rewrite (facade_rm_guard Medium.medium (imported one_file) "/"); [reflexivity|].
  simpl. lia.
Defined.

(** ** Operations of the router when dispatch fails *)

(** X7: When dispatch fails for a path, every operation of the router on that
    path raises the same error; no backend is called and the world is
    left as it was. *)
Theorem router_operations_fail_with_dispatch {E : Type} (medium : handler E) (w : World E)
    (self : MultiObjectStore.t) (path : string) (e : exn) :
  MultiObjectStore._fs self path = inl e ->
  (forall data, exec medium (MultiObjectStore.put_object self path data) w = raised e w)
  /\ exec medium (MultiObjectStore.get_object self path) w = raised e w
  /\ exec medium (MultiObjectStore.exists_ self path) w = raised e w
  /\ (forall query, exec medium (MultiObjectStore.ls self path query) w = raised e w)
  /\ (forall recursive, exec medium (MultiObjectStore.rm self path recursive) w = raised e w)
  /\ (forall mode, exec medium (MultiObjectStore.open_ self path mode) w = raised e w)
  /\ (forall paths, exec medium (MultiObjectStore.path_join self path paths) w = raised e w).
Proof.
  intros Hf.
  unfold MultiObjectStore.put_object, MultiObjectStore.get_object, MultiObjectStore.exists_,
    MultiObjectStore.ls, MultiObjectStore.rm, MultiObjectStore.open_,
    MultiObjectStore.path_join.
  rewrite Hf. repeat split; intros; reflexivity.
Qed.

Lemma router_operations_fail_with_dispatch_witness :
  exec Medium.medium (MultiObjectStore.get_object MultiObjectStore.init "/tmp/key")
       (imported one_file)
  = raised (KeyError None) (imported one_file).
Proof.
  apply (router_operations_fail_with_dispatch Medium.medium (imported one_file)
           MultiObjectStore.init "/tmp/key" (KeyError None)).
  reflexivity.
Defined.

(** ** Splitting a cloud path *)

Lemma split_cons (sep : ascii) (s : string) :
  exists h t, split sep s = h :: t.
Proof.
  induction s as [|a s [h [t IH]]]; simpl; [eauto|].
  destruct (Ascii.eqb a sep); [eauto|]. rewrite IH. eauto.
Qed.

Lemma join_split (s : string) : join "/" (split "/" s) = s.
Proof.
  induction s as [|a s IH]; [reflexivity|]. cbn [split].
  destruct (split_cons "/" s) as [h [t Hs]]. rewrite Hs in IH |- *.
  destruct (Ascii.eqb_spec a "/") as [->|Hne].
  - change (join "/" ("" :: h :: t)) with (String "/" (join "/" (h :: t))).
    rewrite IH. reflexivity.
  - destruct t as [|h' t].
    + change (join "/" [String a h]) with (String a (join "/" [h])).
      rewrite IH. reflexivity.
    + change (join "/" (String a h :: h' :: t)) with (String a (join "/" (h :: h' :: t))).
      rewrite IH. reflexivity.
Qed.

Lemma split_until_sep (b rest : string) :
  has_sep b = false -> split "/" (b +:+ "/" +:+ rest) = b :: split "/" rest.
Proof.
  induction b as [|a b IH]; intros Hb.
  - reflexivity.
  - simpl in Hb. apply orb_false_iff in Hb as [Ha Hb].
    change (String a b +:+ "/" +:+ rest) with (String a (b +:+ "/" +:+ rest)).
    cbn [split]. rewrite Ha, (IH Hb). reflexivity.
Qed.

Lemma split_no_sep (b : string) : has_sep b = false -> split "/" b = [b].
Proof.
  induction b as [|a b IH]; intros Hb; [reflexivity|].
  simpl in Hb. apply orb_false_iff in Hb as [Ha Hb].
  cbn [split]. rewrite Ha, (IH Hb). reflexivity.
Qed.

Lemma startswith_app (pre s : string) : startswith (pre +:+ s) pre = true.
Proof.
  unfold startswith. induction pre as [|a pre IH].
  - destruct s; reflexivity.
  - change (String a pre +:+ s) with (String a (pre +:+ s)). cbn [String.prefix].
    destruct (ascii_dec a a); [exact IH|congruence].
Qed.

(** X8: [_split_path] undoes the way a cloud path is written: for a bucket
    name without a separator, ["s3://bucket/key"] splits into the bucket
    and the whole key, separators of the key included, and ["s3://bucket"]
    into the bucket and the empty key. *)
Theorem s3_split_path_inverts (bucket key : string) :
  has_sep bucket = false ->
  S3ObjectStore._split_path ("s3://" +:+ bucket +:+ "/" +:+ key) = Ret (bucket, key)
  /\ S3ObjectStore._split_path ("s3://" +:+ bucket) = Ret (bucket, "").
Proof.
  intros Hb. unfold S3ObjectStore._split_path. split.
  - rewrite startswith_app.
    change (slice_from 5 ("s3://" +:+ bucket +:+ "/" +:+ key)) with (bucket +:+ "/" +:+ key).
    rewrite (split_until_sep _ _ Hb).
    destruct (split_cons "/" key) as [h [t Hs]].
    cbn [assert hd tl]. rewrite join_split. rewrite Hs. reflexivity.
  - rewrite startswith_app.
    change (slice_from 5 ("s3://" +:+ bucket)) with bucket.
    rewrite (split_no_sep _ Hb). reflexivity.
Qed.

Lemma s3_split_path_inverts_witness :
  S3ObjectStore._split_path "s3://bucket/folder/sub/key.gz" = Ret ("bucket", "folder/sub/key.gz").
Proof.
  apply (proj1 (s3_split_path_inverts "bucket" "folder/sub/key.gz" eq_refl)).
Defined.

(** ** The listing helper of the cloud backend *)

(** X9: For a path that does not begin with ["s3://"] the helper raises the
    [AssertionError] of [_split_path]; no listing call is issued. *)
Theorem s3_ls_query_rejects_other_schemes {E : Type} (medium : handler E) (w : World E)
    (path prefix : string) (recursive : bool) :
  startswith path "s3://" = false ->
  exec medium (S3ObjectStore._ls_query path prefix recursive) w
  = raised (AssertionError "") w.
Proof.
  intros Hs. unfold S3ObjectStore._ls_query, S3ObjectStore._split_path.
  rewrite Hs. reflexivity.
Qed.

Lemma s3_ls_query_rejects_other_schemes_witness :
  exec Medium.medium (S3ObjectStore._ls_query "/tmp/t" "f" false) (imported one_file)
  = raised (AssertionError "") (imported one_file).
Proof.
  apply (s3_ls_query_rejects_other_schemes Medium.medium (imported one_file) "/tmp/t" "f" false).
  reflexivity.
Defined.

Lemma slice_to_last_app_sep (d : string) : slice_to_last (d +:+ "/") = d.
Proof.
  induction d as [|a d IH]; [reflexivity|].
  change (String a d +:+ "/") with (String a (d +:+ "/")).
  cbn [slice_to_last]. rewrite IH.
  destruct d; reflexivity.
Qed.

(** X10: With a complete response the helper issues one listing call, with the
    delimiter ["/"] unless [recursive], and returns the keys followed by
    the common prefixes, in the order of the response and unsorted, each
    with one trailing separator removed and scheme and bucket in front;
    a common prefix ["d/"] comes back as ["d"]. *)
Theorem s3_ls_query_complete {E : Type} (medium : handler E) (w : World E)
    (path prefix bucket key : string) (recursive : bool)
    (rsp : ListObjectsV2Output) (e' : E) :
  S3ObjectStore._split_path path = Ret (bucket, key) ->
  medium _ (s3_list_objects_v2 bucket (if recursive then "" else "/") (key +:+ prefix)) (ext w)
    = (inr rsp, e') ->
  IsTruncated rsp = false ->
  exec medium (S3ObjectStore._ls_query path prefix recursive) w =
  {| res := inr (map (fun f => "s3://" +:+ bucket +:+ "/" +:+
                               (if endswith f "/" then slice_to_last f else f))
                     (default [] (Contents rsp) ++ default [] (CommonPrefixes rsp)));
     final := {| heap := heap w; ext := e' |};
     calls := [Event (s3_list_objects_v2 bucket (if recursive then "" else "/")
                                         (key +:+ prefix))] |}
  /\ forall d : string,
       (if endswith (d +:+ "/") "/" then slice_to_last (d +:+ "/") else d +:+ "/") = d.
Proof.
  intros Hs Hm Hc. split.
  - rewrite (s3_ls_query_call _ _ _ _ _ Hs), exec_bind. simpl. rewrite Hm. simpl.
    rewrite (s3_ls_query_files_complete _ _ Hc). reflexivity.
  - intros d. rewrite endswith_sep_app_sep. apply slice_to_last_app_sep.
Qed.

Lemma s3_ls_query_complete_witness :
  res (exec Medium.medium (S3ObjectStore._ls_query "s3://bucket/folder/" "" false)
            (imported listing_folder))
  = inr ["s3://bucket/folder/wee.txt"; "s3://bucket/folder/_lala";
         "s3://bucket/folder/subfolder"].
Proof.
  rewrite (proj1 (s3_ls_query_complete Medium.medium (imported listing_folder)
             "s3://bucket/folder/" "" "bucket" "folder/" false
             {| IsTruncated := false;
                Contents := Some ["folder/wee.txt"; "folder/_lala"];
                CommonPrefixes := Some ["folder/subfolder/"] |}
             listing_folder eq_refl eq_refl eq_refl)).
  reflexivity.
Defined.

(** ** Listings without a query *)

Lemma elem_of_sorted (x : string) (l : list string) : x ∈ sorted l <-> x ∈ l.
Proof. rewrite <- (sorted_perm l). reflexivity. Qed.

(** X11: Without a query the cloud backend asks s3fs once and returns what it
    lists with the scheme in front: the same entries, in ascending
    order. *)
Theorem s3_ls_without_query {E : Type} (medium : handler E) (w : World E)
    (path : string) (names : list string) (e' : E) :
  medium _ (s3fs_ls path) (ext w) = (inr names, e') ->
  exists listed,
    exec medium (S3ObjectStore.ls path None) w
    = {| res := inr listed; final := {| heap := heap w; ext := e' |};
         calls := [Event (s3fs_ls path)] |}
    /\ Permutation (map (fun f => "s3://" +:+ f) names) listed
    /\ Sorted String.le listed.
Proof.
  intros Hm. exists (sorted (map (fun f => "s3://" +:+ f) names)). split.
  - unfold S3ObjectStore.ls. rewrite exec_bind. simpl. rewrite Hm. reflexivity.
  - split; [apply sorted_perm|apply sorted_ascending].
Qed.

Lemma s3_ls_without_query_witness :
  exists listed,
    res (exec Medium.medium (S3ObjectStore.ls "s3://b" None) (imported one_object))
    = inr listed
    /\ Permutation ["s3://b/data"] listed.
Proof.
  destruct (s3_ls_without_query Medium.medium (imported one_object) "s3://b"
              ["b/data"] one_object eq_refl) as [listed [Hex [Hperm _]]].
  exists listed. rewrite Hex. split; [reflexivity|exact Hperm].
Defined.

(** X12: Without a query the local backend lists the directory once and
    returns every entry joined to the path, in ascending order. *)
Theorem local_ls_without_query {E : Type} (medium : handler E) (w : World E)
    (path : string) (names : list string) (e' : E) :
  medium _ (os_listdir path) (ext w) = (inr names, e') ->
  exists listed,
    exec medium (LocalObjectStore.ls path None) w
    = {| res := inr listed; final := {| heap := heap w; ext := e' |};
         calls := [Event (os_listdir path)] |}
    /\ Permutation (map (fun f => os_path_join path [f]) names) listed
    /\ Sorted String.le listed.
Proof.
  intros Hm. exists (sorted (map (fun f => os_path_join path [f]) names)). split.
  - unfold LocalObjectStore.ls, LocalObjectStore.ls_none. rewrite exec_bind.
    simpl. rewrite Hm. reflexivity.
  - split; [apply sorted_perm|apply sorted_ascending].
Qed.

Lemma local_ls_without_query_witness :
  exists listed,
    res (exec Medium.medium (LocalObjectStore.ls "/t/" None) (imported test_tree))
    = inr listed
    /\ Permutation ["/t/_lala"; "/t/wee.txt"; "/t/folder"] listed
    /\ Sorted String.le listed.
Proof.
  destruct (local_ls_without_query Medium.medium (imported test_tree) "/t/"
              ["_lala"; "wee.txt"; "folder"] test_tree)
    as [listed [Hex [Hperm Hsort]]].
  - vm_compute. reflexivity.
  - exists listed. rewrite Hex. split; [reflexivity|]. split; [exact Hperm|exact Hsort].
Defined.

(** ** The local backend *)

(** X13: With any query the local listing hands the query to its helper as the
    only argument and raises [TypeError]; the disk is not consulted. *)
Theorem local_ls_with_query_raises {E : Type} (medium : handler E) (w : World E)
    (path : string) (q : S3Query) :
  exec medium (LocalObjectStore.ls path (Some q)) w
  = raised (TypeError "_ls_query() missing 1 required positional argument: 'prefix'") w.
Proof. reflexivity. Qed.

(** X14: Called directly without recursion, the local helper returns, in
    ascending order, the entries of the directory whose joined path, and
    not whose name, begins with the prefix. *)
Theorem local_ls_query_flat {E : Type} (medium : handler E) (w : World E)
    (path prefix : string) (names : list string) (e' : E) :
  medium _ (os_listdir path) (ext w) = (inr names, e') ->
  exists listed,
    exec medium (LocalObjectStore._ls_query path prefix false) w
    = {| res := inr listed; final := {| heap := heap w; ext := e' |};
         calls := [Event (os_listdir path)] |}
    /\ Sorted String.le listed
    /\ forall f, f ∈ listed <->
         startswith f prefix = true
         /\ exists name, name ∈ names /\ f = os_path_join path [name].
Proof.
  intros Hm.
  exists (sorted (List.filter (fun f => startswith f prefix)
                    (sorted (map (fun f => os_path_join path [f]) names)))).
  split; [|split; [apply sorted_ascending|]].
  - unfold LocalObjectStore._ls_query, LocalObjectStore.ls_none.
    rewrite !exec_bind. simpl. rewrite Hm. reflexivity.
  - intros f. rewrite elem_of_sorted, list_elem_of_In, filter_In, <- list_elem_of_In,
      elem_of_sorted, list_elem_of_In, in_map_iff.
    split.
    + intros [[name [Hf Hin]] Hs]. split; [exact Hs|].
      exists name. split; [apply list_elem_of_In, Hin|symmetry; exact Hf].
    + intros [Hs [name [Hin Hf]]]. split; [|exact Hs].
      exists name. split; [symmetry; exact Hf|apply list_elem_of_In, Hin].
Qed.

Lemma local_ls_query_flat_witness :
  exists listed,
    res (exec Medium.medium (LocalObjectStore._ls_query "/t/" "/t/w" false)
              (imported test_tree)) = inr listed
    /\ ("/t/wee.txt" ∈ listed) /\ ~ ("/t/_lala" ∈ listed).
Proof.
  destruct (local_ls_query_flat Medium.medium (imported test_tree) "/t/" "/t/w"
              ["_lala"; "wee.txt"; "folder"] test_tree)
    as [listed [Hex [_ Hin]]].
  - vm_compute. reflexivity.
  - exists listed. rewrite Hex. split; [reflexivity|]. split.
    + apply Hin. split; [reflexivity|]. exists "wee.txt". split; [|reflexivity].
      apply list_elem_of_In. simpl. tauto.
    + intros H. apply Hin in H as [Hs _]. vm_compute in Hs. discriminate Hs.
Defined.

(** X15: Called directly with recursion, the local helper walks the tree once
    and returns, in ascending order, every file of every directory of the
    walk whose joined path begins with the prefix; directories are not
    returned. *)
Theorem local_ls_query_recursive {E : Type} (medium : handler E) (w : World E)
    (path prefix : string) (tree : list (string * list string * list string)) (e' : E) :
  medium _ (os_walk path) (ext w) = (inr tree, e') ->
  exists listed,
    exec medium (LocalObjectStore._ls_query path prefix true) w
    = {| res := inr listed; final := {| heap := heap w; ext := e' |};
         calls := [Event (os_walk path)] |}
    /\ Sorted String.le listed
    /\ forall f, f ∈ listed <->
         startswith f prefix = true
         /\ exists sub_path subdirs files name,
              (sub_path, subdirs, files) ∈ tree /\ name ∈ files
              /\ f = os_path_join sub_path [name].
Proof.
  intros Hm.
  exists (sorted (List.filter (fun f => startswith f prefix)
            (flat_map (fun entry : string * list string * list string =>
                         let '(sub_path, _, files) := entry in
                         map (fun name => os_path_join sub_path [name]) files) tree))).
  split; [|split; [apply sorted_ascending|]].
  - unfold LocalObjectStore._ls_query. rewrite !exec_bind. simpl. rewrite Hm. reflexivity.
  - intros f. rewrite elem_of_sorted, list_elem_of_In, filter_In, in_flat_map.
    split.
    + intros [[[[sub dirs] files] [Hin Hf]] Hs]. split; [exact Hs|].
      apply in_map_iff in Hf as [name [Hf Hname]].
      exists sub, dirs, files, name.
      split; [apply list_elem_of_In, Hin|]. split; [apply list_elem_of_In, Hname|].
      symmetry. exact Hf.
    + intros [Hs [sub [dirs [files [name [Hin [Hname Hf]]]]]]]. split; [|exact Hs].
      exists (sub, dirs, files). split; [apply list_elem_of_In, Hin|].
      apply in_map_iff. exists name. split; [symmetry; exact Hf|].
      apply list_elem_of_In, Hname.
Qed.

Lemma local_ls_query_recursive_witness :
  exists listed,
    res (exec Medium.medium (LocalObjectStore._ls_query "/t" "/t/" true)
              (imported test_tree)) = inr listed
    /\ ("/t/folder/wee.txt" ∈ listed).
Proof.
  destruct (local_ls_query_recursive Medium.medium (imported test_tree) "/t" "/t/"
              [("/t", ["folder"], ["_lala"; "wee.txt"]); ("/t/folder", [], ["wee.txt"])]
              test_tree)
    as [listed [Hex [_ Hin]]].
  - vm_compute. reflexivity.
  - exists listed. rewrite Hex. split; [reflexivity|].
    apply Hin. split; [reflexivity|].
    exists "/t/folder", [], ["wee.txt"], "wee.txt".
    split; [|split; [|reflexivity]]; apply list_elem_of_In; simpl; tauto.
Defined.

(** X16: What a removal on the local backend asks of the disk: a plain
    [os.remove] without recursion, whatever the length of the path; with
    recursion nothing below five characters and one [shutil.rmtree]
    otherwise. *)
Theorem local_rm_calls {E : Type} (medium : handler E) (w : World E)
    (path : string) (recursive : bool) :
  calls (exec medium (LocalObjectStore.rm path recursive) w)
  = if recursive then
      if Nat.ltb (String.length path) 5 then [] else [Event (shutil_rmtree path)]
    else [Event (os_remove path)].
Proof.
  unfold LocalObjectStore.rm. destruct recursive.
  - destruct (Nat.ltb (String.length path) 5); [reflexivity|].
    apply exec_perform_calls. exact I.
  - apply exec_perform_calls. exact I.
Qed.

Lemma calls_bind_head {E A B : Type} (medium : handler E) (m : Prog A) (f : A -> Prog B)
    (w : World E) (ev : event) :
  head (calls (exec medium m w)) = Some ev ->
  head (calls (exec medium (m ≫= f) w)) = Some ev.
Proof.
  intros Hh. rewrite exec_bind.
  destruct (res (exec medium m w)); cbn [calls]; [exact Hh|].
  destruct (calls (exec medium m w)); [discriminate Hh|exact Hh].
Qed.

(** X18: Reading through the local backend creates directories: for a path
    whose directory part is neither empty nor the root, [get_object]
    first asks [os.makedirs] for that directory, before the file is
    opened; an [open] in mode ["r"] asks for the file only. *)
Theorem local_get_object_creates_parent {E : Type} (medium : handler E) (w : World E)
    (path : string) :
  os_path_dirname path ∉ ["/"; ""] ->
  head (calls (exec medium (LocalObjectStore.get_object path) w))
    = Some (Event (os_makedirs (os_path_dirname path) true))
  /\ calls (exec medium (LocalObjectStore.open_ path "r") w)
     = [Event (builtin_open path "r")].
Proof.
  intros Hd. split.
  - unfold LocalObjectStore.get_object, with_open, LocalObjectStore.open_.
    rewrite (bool_decide_eq_false_2 _ Hd).
    change (negb ("rb" =? "r") && negb false) with true. cbv iota.
    apply calls_bind_head, calls_bind_head.
    rewrite exec_perform_calls; [reflexivity|exact I].
  - unfold LocalObjectStore.open_. change (negb ("r" =? "r")) with false. cbn [andb].
    change (Ret ();; perform (builtin_open path "r")) with (perform (builtin_open path "r")).
    apply exec_perform_calls. exact I.
Qed.

Lemma local_get_object_creates_parent_witness :
  head (calls (exec Medium.medium (LocalObjectStore.get_object "/new/dir/f")
                    (imported Medium.empty)))
    = Some (Event (os_makedirs "/new/dir" true))
  /\ res (exec Medium.medium (LocalObjectStore.get_object "/new/dir/f")
               (imported Medium.empty)) = inl (FileNotFoundError "/new/dir/f")
  /\ Medium.is_dir (ext (final (exec Medium.medium (LocalObjectStore.get_object "/new/dir/f")
                                     (imported Medium.empty)))) "/new/dir" = true.
Proof.
  split.
  - apply (local_get_object_creates_parent Medium.medium (imported Medium.empty) "/new/dir/f").
    apply (bool_decide_unpack _). vm_compute. exact I.
  - split; vm_compute; reflexivity.
Defined.

(** X19: When the directory cannot be made, [put_object] of the local backend
    raises the error of [os.makedirs] and stops there: the file is neither
    opened nor written. *)
Theorem local_put_object_stops_on_makedirs_error {E : Type} (medium : handler E)
    (w : World E) (path : string) (data : bytes) (e : exn) (e' : E) :
  medium _ (os_makedirs (os_path_dirname path) true) (ext w) = (inl e, e') ->
  exec medium (LocalObjectStore.put_object path data) w
  = {| res := inl e; final := {| heap := heap w; ext := e' |};
       calls := [Event (os_makedirs (os_path_dirname path) true)] |}.
Proof.
  intros Hm. unfold LocalObjectStore.put_object. rewrite exec_bind.
  simpl. rewrite Hm. reflexivity.
Qed.

Lemma local_put_object_stops_on_makedirs_error_witness :
  exec Medium.medium (LocalObjectStore.put_object "/tmp/t/f1.txt/x" [Byte.x2a])
       (imported one_file)
  = {| res := inl (OSError "FileExistsError"); final := imported one_file;
       calls := [Event (os_makedirs "/tmp/t/f1.txt" true)] |}.
Proof.
  apply (local_put_object_stops_on_makedirs_error Medium.medium (imported one_file)
           "/tmp/t/f1.txt/x" [Byte.x2a] (OSError "FileExistsError") one_file).
  vm_compute. reflexivity.
Defined.

(** ** Handles of the cloud backend *)

(** X20: [get_object] and [put_object] of the cloud backend open once; when
    the open succeeds they read or write once and then close the handle,
    whatever the read or write answered; when it fails nothing else is
    called. *)
Theorem s3_object_calls {E : Type} (medium : handler E) (w : World E)
    (path : string) (data : bytes) :
  calls (exec medium (S3ObjectStore.get_object path) w)
  = Event (s3fs_open path "rb") ::
    match fst (medium _ (s3fs_open path "rb") (ext w)) with
    | inr fp => [Event (fp_read fp); Event (fp_close fp)]
    | inl _ => []
    end
  /\ calls (exec medium (S3ObjectStore.put_object path data) w)
     = Event (s3fs_open path "wb") ::
       match fst (medium _ (s3fs_open path "wb") (ext w)) with
       | inr fp => [Event (fp_write fp data); Event (fp_close fp)]
       | inl _ => []
       end.
Proof.
  split.
  - unfold S3ObjectStore.get_object, S3ObjectStore.open_, with_open. simpl.
    destruct (medium handle (s3fs_open path "rb") (ext w)) as [[e|fp] e1]; simpl;
      [reflexivity|].
    destruct (medium bytes (fp_read fp) e1) as [[e|b] e2]; simpl;
      destruct (medium unit (fp_close fp) e2) as [[e3|[]] e4]; reflexivity.
  - unfold S3ObjectStore.put_object, S3ObjectStore.open_, with_open. simpl.
    destruct (medium handle (s3fs_open path "wb") (ext w)) as [[e|fp] e1]; simpl;
      [reflexivity|].
    destruct (medium unit (fp_write fp data) e1) as [[e|[]] e2]; simpl;
      destruct (medium unit (fp_close fp) e2) as [[e3|[]] e4]; reflexivity.
Qed.

(** ** Joining cloud paths *)

(** X21: Segments that do not end in a separator are joined with exactly one
    separator between neighbours, the empty ones left out. *)
Theorem s3_path_join_plain (p : string) (paths : list string) :
  Forall (fun s => endswith s "/" = false) (p :: paths) ->
  S3ObjectStore.path_join p paths = join "/" (non_empty (p :: paths)).
Proof.
  intros Hplain. rewrite path_join_glue. apply glue_plain.
  apply Forall_list_filter, Hplain.
Qed.

Lemma s3_path_join_plain_witness :
  S3ObjectStore.path_join "s3://bucket" ["folder"; ""; "wee.txt"]
  = "s3://bucket/folder/wee.txt".
Proof.
  rewrite (s3_path_join_plain "s3://bucket" ["folder"; ""; "wee.txt"]); [reflexivity|].
  repeat constructor.
Defined.

Lemma endswith_sep_app (s t : string) :
  t <> "" -> endswith (s +:+ t) "/" = endswith t "/".
Proof.
  intros Ht. induction s as [|c s IH]; [reflexivity|].
  change (String c s +:+ t) with (String c (s +:+ t)).
  rewrite endswith_sep_cons, IH.
  destruct (s +:+ t) eqn:Hst.
  - destruct s; [change ("" +:+ t) with t in Hst; congruence|discriminate Hst].
  - change (String a s0 =? "") with false. rewrite andb_false_r. reflexivity.
Qed.

Lemma close_segment_app (s t : string) :
  t <> "" -> close_segment (s +:+ t) = s +:+ close_segment t.
Proof.
  intros Ht. unfold close_segment. rewrite (endswith_sep_app _ _ Ht).
  destruct (endswith t "/"); [reflexivity|apply append_assoc].
Qed.

Lemma glue_non_empty (segments : list string) :
  Forall (fun s => s <> "") segments -> segments <> [] -> glue segments <> "".
Proof.
  intros Hne Hl. destruct segments as [|s rest]; [congruence|].
  apply Forall_cons in Hne as [Hs _].
  destruct rest as [|s' rest]; [exact Hs|].
  change (glue (s :: s' :: rest)) with (close_segment s +:+ glue (s' :: rest)).
  pose proof (close_segment_non_empty s) as Hc.
  destruct (close_segment s); [congruence|discriminate].
Qed.

Lemma glue_app (left right : list string) :
  Forall (fun s => s <> "") left -> left <> [] -> right <> [] ->
  glue (left ++ right) = close_segment (glue left) +:+ glue right.
Proof.
  intros Hne Hl Hr. induction left as [|s rest IH]; [congruence|].
  apply Forall_cons in Hne as [Hs Hne].
  destruct rest as [|s' rest].
  - destruct right as [|r right]; [congruence|]. reflexivity.
  - change (glue ((s :: s' :: rest) ++ right))
      with (close_segment s +:+ glue ((s' :: rest) ++ right)).
    rewrite IH by (assumption || discriminate).
    change (glue (s :: s' :: rest)) with (close_segment s +:+ glue (s' :: rest)).
    rewrite close_segment_app by (apply glue_non_empty; [assumption|discriminate]).
    rewrite append_assoc. reflexivity.
Qed.

(** X22: Joining in two steps is joining at once: a joined path can be used as
    the first segment of a further join. *)
Theorem s3_path_join_nests (p : string) (paths more : list string) :
  S3ObjectStore.path_join (S3ObjectStore.path_join p paths) more
  = S3ObjectStore.path_join p (paths ++ more).
Proof.
  rewrite !path_join_glue.
  change (p :: paths ++ more) with ((p :: paths) ++ more).
  unfold non_empty at 1 3. rewrite List.filter_app.
  fold (non_empty (p :: paths)). fold (non_empty more).
  pose proof (non_empty_spec (p :: paths)) as Hne.
  destruct (non_empty (p :: paths)) as [|s rest] eqn:Hl.
  - reflexivity.
  - assert (Hg : glue (s :: rest) <> "") by (apply glue_non_empty; [exact Hne|discriminate]).
    cbn [List.filter]. destruct (String.eqb_spec (glue (s :: rest)) ""); [contradiction|].
    cbn [negb]. fold (non_empty more).
    destruct (non_empty more) as [|r right] eqn:Hmore.
    + rewrite app_nil_r. reflexivity.
    + rewrite glue_app by (assumption || discriminate). reflexivity.
Qed.

(** ** Batches of existence checks *)

(** X23: The in-memory backend reports no path of any batch as existing, in
    any state, and touches nothing. *)
Theorem inmemory_exists_list_empty {E : Type} (medium : handler E) (w : World E)
    (self : InMemoryObjectStore.instance) (paths : list string) :
  exec medium (ObjectStore.exists_list (InMemoryObjectStore.as_store self) paths) w
  = {| res := inr []; final := w; calls := [] |}.
Proof.
  induction paths as [|p paths IH]; [reflexivity|].
  cbn [ObjectStore.exists_list]. rewrite exec_bind. cbn [ObjectStore.exists_ 
    InMemoryObjectStore.as_store InMemoryObjectStore.exists_ exec res final calls].
  rewrite exec_bind, IH. reflexivity.
Qed.

(** X24: One failing check fails the batch: when the checks of the paths in
    front answer without changing the world and the check of the next
    path raises, [exists_list] raises that error and returns no list. *)
Theorem exists_list_raises {E : Type} (medium : handler E) (self : ObjectStore.t)
    (w : World E) (answer : string -> value) (before after : list string)
    (p : string) (e : exn) :
  (forall q, q ∈ before ->
     res (exec medium (ObjectStore.exists_ self q) w) = inr (answer q)
     /\ final (exec medium (ObjectStore.exists_ self q) w) = w) ->
  res (exec medium (ObjectStore.exists_ self p) w) = inl e ->
  res (exec medium (ObjectStore.exists_list self (before ++ p :: after)) w) = inl e.
Proof.
  intros Hobs Hp. induction before as [|q before IH].
  - cbn [app ObjectStore.exists_list]. rewrite exec_bind, Hp. reflexivity.
  - destruct (Hobs q) as [Hres Hfin]; [left|].
    cbn [app ObjectStore.exists_list].
    rewrite exec_bind, Hres, Hfin. cbn [res].
    rewrite exec_bind, IH; [reflexivity|].
    intros q' Hq'. apply Hobs. right. exact Hq'.
Qed.

Lemma exists_list_raises_witness :
  res (exec Medium.medium
         (ObjectStore.exists_list (MultiObjectStore.as_store cloud_only)
            ["s3://b/data"; "/tmp/t/f1.txt"; "s3://b/other"])
         (imported one_object))
  = inl (KeyError None).
Proof.
  apply (exists_list_raises Medium.medium (MultiObjectStore.as_store cloud_only)
           (imported one_object) (fun _ => VBool true)
           ["s3://b/data"] ["s3://b/other"] "/tmp/t/f1.txt" (KeyError None)).
  - intros q Hq. apply list_elem_of_singleton in Hq. subst q.
    split; vm_compute; reflexivity.
  - reflexivity.
Defined.

(** X25: Through the facade a batch asks the cloud about the paths that begin
    with ["s3://"] and the disk about the others, one call for each path,
    in the order of the batch, as long as no check raises. *)
Theorem facade_exists_list_calls {E : Type} (medium : handler E) :
  (forall p e, exists b e', medium _ (s3fs_exists p) e = (inr b, e')) ->
  (forall p e, exists b e', medium _ (os_path_exists p) e = (inr b, e')) ->
  forall (paths : list string) (w : World E),
    calls (exec medium (ObjectStore.exists_list (MultiObjectStore.as_store fs) paths) w)
    = map (fun p => if startswith p "s3://" then Event (s3fs_exists p)
                    else Event (os_path_exists p)) paths.
Proof.
  intros Hs3 Hos paths. induction paths as [|p paths IH]; intros w; [reflexivity|].
  cbn [ObjectStore.exists_list map]. rewrite exec_bind.
  assert (Hone : exists v w',
             exec medium (ObjectStore.exists_ (MultiObjectStore.as_store fs) p) w
             = {| res := inr v; final := w';
                  calls := [if startswith p "s3://" then Event (s3fs_exists p)
                            else Event (os_path_exists p)] |}).
  { cbn [ObjectStore.exists_ MultiObjectStore.as_store].
    unfold MultiObjectStore.exists_. rewrite fs_facade.
    destruct (startswith p "s3://").
    - destruct (Hs3 p (ext w)) as [b [e' Hm]].
      exists (VBool b), {| heap := heap w; ext := e' |}. simpl. rewrite Hm. reflexivity.
    - destruct (Hos p (ext w)) as [b [e' Hm]].
      exists (VBool b), {| heap := heap w; ext := e' |}. simpl. rewrite Hm. reflexivity. }
  destruct Hone as [v [w' Hone]]. rewrite Hone. cbn [res final calls].
  rewrite exec_bind, (IH w').
  destruct (res (exec medium _ w')); cbn [calls exec]; rewrite ?app_nil_r; reflexivity.
Qed.

Lemma facade_exists_list_calls_witness :
  calls (exec Medium.medium
           (ObjectStore.exists_list (MultiObjectStore.as_store fs)
              ["s3://b/data"; "/tmp/t/f1.txt"])
           (imported one_file))
  = [Event (s3fs_exists "s3://b/data"); Event (os_path_exists "/tmp/t/f1.txt")].
Proof.
  apply (facade_exists_list_calls Medium.medium).
  - intros p e. eexists. eexists. reflexivity.
  - intros p e. eexists. eexists. reflexivity.
Defined.

(** ** The shared dict of the in-memory backend *)

(** X26: Reading a path nobody has put raises [KeyError] with the path as key
    and changes nothing. *)
Theorem inmemory_get_missing {E : Type} (medium : handler E) (w : World E)
    (a : nat) (path : string) :
  default ∅ (heap w !! InMemoryObjectStore.perPath_data_loc) !! path = None ->
  exec medium (InMemoryObjectStore.get_object (InMemoryObjectStore.new a) path) w
  = raised (KeyError (Some path)) w.
Proof.
  intros Hmiss. rewrite inmemory_get_object_call. unfold raised. simpl.
  rewrite Hmiss. reflexivity.
Qed.

Lemma inmemory_get_missing_witness :
  exec Medium.medium (InMemoryObjectStore.get_object (InMemoryObjectStore.new 1) "k")
       (imported Medium.empty)
  = raised (KeyError (Some "k")) (imported Medium.empty).
Proof.
  apply (inmemory_get_missing Medium.medium (imported Medium.empty) 1 "k").
  vm_compute. reflexivity.
Defined.

(** X27: A put replaces what its path held and leaves every other path alone:
    a read after it returns the payload for the path put, by whichever
    instance, and for any other path what it returned before. *)
Theorem inmemory_put_then_get {E : Type} (medium : handler E) (w : World E)
    (a b : nat) (p q : string) (data : bytes) :
  res (exec medium
         (InMemoryObjectStore.put_object (InMemoryObjectStore.new a) q data;;
          InMemoryObjectStore.get_object (InMemoryObjectStore.new b) p) w)
  = if decide (q = p) then inr data
    else res (exec medium
                (InMemoryObjectStore.get_object (InMemoryObjectStore.new b) p) w).
Proof.
  rewrite inmemory_put_object_call, inmemory_get_object_call, exec_bind.
  simpl. rewrite lookup_insert_eq. simpl. rewrite lookup_insert.
  destruct (decide (q = p)); [reflexivity|].
  destruct (default ∅ (heap w !! InMemoryObjectStore.perPath_data_loc) !! p); reflexivity.
Qed.

(** X28: A router that sends a path to an in-memory store reads back through
    [get_object] what [put_object] wrote there. *)
Theorem router_inmemory_round_trip {E : Type} (medium : handler E) (w : World E)
    (self : MultiObjectStore.t) (oid : nat) (path : string) (data : bytes) :
  MultiObjectStore._fs self path
    = inr (InMemoryObjectStore.as_store (InMemoryObjectStore.new oid)) ->
  res (exec medium
         (MultiObjectStore.put_object self path data;;
          MultiObjectStore.get_object self path) w)
  = inr (VBytes data).
Proof.
  intros Hsel. unfold MultiObjectStore.put_object, MultiObjectStore.get_object.
  rewrite Hsel. cbn [lift].
  change (Ret (InMemoryObjectStore.as_store (InMemoryObjectStore.new oid)) ≫=
            (fun s => ObjectStore.put_object s path data;; Ret VNone))
    with ((InMemoryObjectStore.put_object (InMemoryObjectStore.new oid) path data;;
           Ret VNone);; Ret VNone).
  change (Ret (InMemoryObjectStore.as_store (InMemoryObjectStore.new oid)) ≫=
            (fun s => ObjectStore.get_object s path))
    with (bs ← InMemoryObjectStore.get_object (InMemoryObjectStore.new oid) path;
          Ret (VBytes bs)).
  rewrite inmemory_put_object_call, inmemory_get_object_call.
  simpl. rewrite lookup_insert_eq. simpl. rewrite lookup_insert_eq. reflexivity.
Qed.

Lemma router_inmemory_round_trip_witness :
  res (exec Medium.medium
         (MultiObjectStore.put_object with_memory "mem://k" [Byte.x2a];;
          MultiObjectStore.get_object with_memory "mem://k") (imported one_file))
  = inr (VBytes [Byte.x2a]).
Proof.
  apply (router_inmemory_round_trip Medium.medium (imported one_file) with_memory 7
           "mem://k" [Byte.x2a]).
  reflexivity.
Defined.
